(** * Nest aggregation of EvergladesTools: [Zooniverse/process_nests.py]

    A shallow embedding of [count_max_consec_detects] and [process_nests]
    and the properties of the nest-aggregation algorithm.

    Conventions of the embedding:
    - a pandas table is the list of its rows, in row order;
    - Python exceptions are the [Raise] outcomes of the [result] monad;
    - the [float64] cells of the rank-difference series hold either [NaN]
      or a whole number, so they are a two-constructor type over [Z];
    - scores and box coordinates are rationals: comparisons are those of
      the floats they stand for, sums and means are exact (binary64
      rounding is not modelled);
    - the file system is a parameter: what [os.path.exists] answers and
      how [os.makedirs] ends on a path;
    - the file that [to_file] writes is the value [process_nests] returns:
      once [savedir] is there the write itself is taken to succeed. *)

From Stdlib Require Import QArith.
From Stdlib Require Import Ascii.
From Stdlib Require OrderedTypeEx.
From stdpp Require Import base list gmap strings sorting pretty.

#[local] Set Warnings "-clear-no-such-hyp".

Local Open Scope string_scope.
Local Open Scope list_scope.
Local Open Scope Z_scope.

(** ** Exceptions *)

Inductive exn : Type :=
  | AssertionError (msg : string)
  | ValueError
  | KeyError (key : nat)
  | OSError (name : string).

Inductive result (A : Type) : Type :=
  | Ok (a : A)
  | Raise (e : exn).
Arguments Ok {A} a.
Arguments Raise {A} e.

Global Instance result_ret : MRet result := λ A, Ok.
Global Instance result_bind : MBind result := λ A B f m,
  match m with Ok a => f a | Raise e => Raise e end.

(** A [for] loop whose body may raise: the state is threaded through the
    iterations and the first exception ends the loop. *)
Fixpoint for_each {S A : Type} (body : S → A → result S) (l : list A) (s : S)
    : result S :=
  match l with
  | [] => Ok s
  | x :: l' => s' ← body s x; for_each body l' s'
  end.

(** Python's builtin [max] over a sequence: the first maximal element,
    [ValueError] on an empty sequence. *)
Definition py_max {A : Type} (gt : A → A → bool) (l : list A) : result A :=
  match l with
  | [] => Raise ValueError
  | x :: l' => Ok (foldl (λ m y, if gt y m then y else m) x l')
  end.

(** ** The parts of pandas the aggregation uses *)

Module Pandas.

(** A [float64] cell of a series of whole numbers. *)
Inductive cell : Type :=
  | NaN
  | Num (z : Z).

(** [x == 1] and [x != 1]: IEEE comparisons, [NaN] is unequal to
    everything. *)
Definition eq1 (x : cell) : bool :=
  match x with Num z => bool_decide (z = 1) | NaN => false end.
Definition ne1 (x : cell) : bool :=
  match x with Num z => bool_decide (z ≠ 1) | NaN => true end.

Definition sub (x y : cell) : cell :=
  match x, y with Num a, Num b => Num (a - b) | _, _ => NaN end.

(** [Series.diff()]: the first cell is [NaN], every other one is the
    difference with the cell before it. *)
Fixpoint diff_from (prev : cell) (l : list cell) : list cell :=
  match l with
  | [] => []
  | x :: l' => sub x prev :: diff_from x l'
  end.
Definition diff (l : list cell) : list cell :=
  match l with
  | [] => []
  | x :: l' => NaN :: diff_from x l'
  end.

(** [Series.sort_values().reset_index(drop=True)] on strings. *)
Definition sort_values (l : list string) : list string :=
  merge_sort (λ a b, String.leb a b) l.

(** [Series.unique()]: the distinct values in order of first
    appearance. *)
Fixpoint unique {A : Type} `{EqDecision A} (l : list A) : list A :=
  match l with
  | [] => []
  | x :: l' => x :: filter (λ y, y ≠ x) (unique l')
  end.

(** [Series.map(dict)]: a key the dict lacks maps to [NaN]. *)
Definition map_dict (dict : gmap string Z) (l : list string) : list cell :=
  (λ d, from_option Num NaN (dict !! d)) <$> l.

(** [DataFrame.groupby(keys)]: one group per distinct key, the groups
    in ascending key order, the rows of a group in table order. *)
Definition groupby {R K : Type} `{EqDecision K} (le : K → K → bool)
    (key : R → K) (rows : list R) : list (K * list R) :=
  (λ k, (k, filter (λ r, key r = k) rows))
    <$> merge_sort (λ a b, le a b) (unique (key <$> rows)).

(** Lexicographic order on the pairs a compound key is made of. *)
Definition lex {A B : Type} `{EqDecision A} (lea : A → A → bool)
    (leb : B → B → bool) (x y : A * B) : bool :=
  if decide (x.1 = y.1) then leb x.2 y.2 else lea x.1 y.1.

(** The aggregations [sum], [mean], [min] and [max] of a column. *)
Definition sum (l : list Q) : Q := foldl Qplus 0%Q l.
Definition mean (l : list Q) : Q :=
  (sum l / inject_Z (Z.of_nat (length l)))%Q.
Definition str_min (l : list string) : string :=
  match l with
  | [] => ""
  | x :: l' => foldl (λ m y, if String.ltb y m then y else m) x l'
  end.
Definition str_max (l : list string) : string :=
  match l with
  | [] => ""
  | x :: l' => foldl (λ m y, if String.ltb m y then y else m) x l'
  end.

(** [series[i]] on a series with a fresh [RangeIndex]. *)
Definition at_ {A : Type} (l : list A) (i : nat) : result A :=
  match l !! i with
  | Some x => Ok x
  | None => Raise (KeyError i)
  end.

End Pandas.
Import Pandas.

(** ** The input table *)

Record Detection : Type := mkDetection {
  Site : string;
  Year : string;
  Date : string;
  target_ind : Z;
  score : Q;
  label : string;
  bird_id : Z;
  match_xmin : Q;
  match_ymin : Q;
  match_xmax : Q;
  match_ymax : Q
}.

(** A row of [date_data]: one (Site, Year) group with its survey dates. *)
Record DateRow : Type := mkDateRow {
  dr_Site : string;
  dr_Year : string;
  dr_Date : list string
}.

(** ** [count_max_consec_detects] *)

(** [{val: key for key, val in sorted_dates.items()}]: later items
    overwrite earlier ones. *)
Definition dates_dict (sorted_dates : list string) : gmap string Z :=
  foldl (λ m kv, <[kv.2 := Z.of_nat kv.1]> m) ∅ (imap pair sorted_dates).

(** [sorted_nest_dates.map(sorted_dates_dict)]: the rank of each of the
    target's dates in the sorted survey calendar. *)
Definition date_ranks (nest_data : list Detection) (calendar : list string)
    : list cell :=
  map_dict (dates_dict (sort_values calendar)) (sort_values (Date <$> nest_data)).

(** The body of the scan, at index [i] of the difference series [d]; the
    state is [(all_consec_detects, consec_detects)]. *)
Definition scan_body (d : list cell) (st : list Z * Z) (i : nat)
    : result (list Z * Z) :=
  let '(all_consec_detects, consec_detects) := st in
  cur ← at_ d i;
  prev ← at_ d (i - 1);
  if eq1 cur && ne1 prev then
    let consec_detects := 1 in
    if bool_decide (i + 1 = length d)%nat
    then Ok (all_consec_detects ++ [consec_detects], consec_detects)
    else Ok (all_consec_detects, consec_detects)
  else if eq1 cur && eq1 prev then
    let consec_detects := consec_detects + 1 in
    if bool_decide (i + 1 = length d)%nat
    then Ok (all_consec_detects ++ [consec_detects], consec_detects)
    else Ok (all_consec_detects, consec_detects)
  else if ne1 cur && eq1 prev then
    Ok (all_consec_detects ++ [consec_detects], 0)
  else if ne1 cur && ne1 prev then
    Ok (all_consec_detects, consec_detects)
  else
    Raise (AssertionError "Oops, I shouldn't be here").

(** The scan of a difference series and the final maximum. *)
Definition max_consec_of_diff (d : list cell) : result Z :=
  '(all_consec_detects, _) ←
    for_each (scan_body d) (seq 1 (length d - 1)) ([], 0);
  match all_consec_detects with
  | [] => Ok 0
  | _ => py_max Z.gtb all_consec_detects
  end.

Definition count_max_consec_detects
    (nest_data : list Detection) (date_data : list DateRow) : result Z :=
  if bool_decide (length date_data = 1%nat) then
    row0 ← at_ date_data 0;
    max_consec_of_diff (diff (date_ranks nest_data (dr_Date row0)))
  else
    Raise (AssertionError "date_data should be a Pandas DataFrame with one row").

(** ** [process_nests] *)

(** A row of the nest table. *)
Record Nest : Type := mkNest {
  nest_id : Z;
  nest_Site : string;
  nest_Year : string;
  xmean : Q;
  ymean : Q;
  first_obs : string;
  last_obs : string;
  num_obs : nat;
  species : string;
  sum_top1 : Q;
  num_top1 : nat;
  bird_match : string
}.

(** A row of [summed_scores]: a (Site, Year, target_ind, label) group with
    the sum and the count of its scores. *)
Record SummedScore : Type := mkSummedScore {
  ss_key : string * string * Z * string;
  ss_sum : Q;
  ss_count : nat
}.

(** A row of [nest_info]: a (Site, Year, target_ind) group with its
    aggregated dates and box coordinates. *)
Record NestInfo : Type := mkNestInfo {
  ni_key : string * string * Z;
  ni_Date_min : string;
  ni_Date_max : string;
  ni_Date_count : nat;
  ni_match_xmin_mean : Q;
  ni_match_ymin_mean : Q;
  ni_match_xmax_mean : Q;
  ni_match_ymax_mean : Q
}.

Definition le_Site_Year : string * string → string * string → bool :=
  lex String.leb String.leb.
Definition le_Site_Year_target : string * string * Z → string * string * Z → bool :=
  lex le_Site_Year Z.leb.
Definition le_Site_Year_target_label
    : string * string * Z * string → string * string * Z * string → bool :=
  lex le_Site_Year_target String.leb.

(** [nests_data.groupby(['Site', 'Year']).agg({'Date': unique}).reset_index()] *)
Definition survey_dates (nests_data : list Detection) : list DateRow :=
  (λ g, mkDateRow g.1.1 g.1.2 (unique (Date <$> g.2)))
    <$> groupby le_Site_Year (λ r, (Site r, Year r)) nests_data.

(** The rows of one target that reach the score threshold. *)
Definition select (nests_data : list Detection) (target : Z) (min_score : Q)
    : list Detection :=
  filter (λ r, target_ind r = target ∧ Qle_bool min_score (score r)) nests_data.

Definition summed_scores_of (nest_data : list Detection) : list SummedScore :=
  (λ g, mkSummedScore g.1 (sum (score <$> g.2)) (length g.2))
    <$> groupby le_Site_Year_target_label
          (λ r, (Site r, Year r, target_ind r, label r)) nest_data.

Definition nest_info_of (nest_data : list Detection) : list NestInfo :=
  (λ g, mkNestInfo g.1
          (str_min (Date <$> g.2)) (str_max (Date <$> g.2)) (length g.2)
          (mean (match_xmin <$> g.2)) (mean (match_ymin <$> g.2))
          (mean (match_xmax <$> g.2)) (mean (match_ymax <$> g.2)))
    <$> groupby le_Site_Year_target (λ r, (Site r, Year r, target_ind r)) nest_data.

(** [",".join(...)] *)
Fixpoint join (sep : string) (l : list string) : string :=
  match l with
  | [] => ""
  | [x] => x
  | x :: l' => x +:+ sep +:+ join sep l'
  end.

(** The aggregation of a retained target into its row of the table. *)
Definition aggregate (target : Z) (nest_data : list Detection) : result Nest :=
  let summed_scores := summed_scores_of nest_data in
  top ← py_max (λ x y, negb (Qle_bool x y)) (ss_sum <$> summed_scores);
  let top_score_data := filter (λ s, Qeq_bool (ss_sum s) top) summed_scores in
  let nest_info := nest_info_of nest_data in
  xmin0 ← at_ (ni_match_xmin_mean <$> nest_info) 0;
  let xmean := (λ i, (xmin0 + ni_match_xmax_mean i) / 2)%Q <$> nest_info in
  ymin0 ← at_ (ni_match_ymin_mean <$> nest_info) 0;
  let ymean := (λ i, (ymin0 + ni_match_ymax_mean i) / 2)%Q <$> nest_info in
  let bird_match := join "," (pretty <$> (bird_id <$> nest_data)) in
  info0 ← at_ nest_info 0;
  xmean0 ← at_ xmean 0;
  ymean0 ← at_ ymean 0;
  top0 ← at_ top_score_data 0;
  Ok (mkNest target (ni_key info0).1.1 (ni_key info0).1.2 xmean0 ymean0
        (ni_Date_min info0) (ni_Date_max info0) (ni_Date_count info0)
        (ss_key top0).2 (ss_sum top0) (ss_count top0) bird_match).

(** One iteration of the loop over [target_inds]: [nests] is the list of
    rows built so far. *)
Definition process_target (nests_data : list Detection) (date_data : list DateRow)
    (min_score : Q) (min_detections min_consec_detects : Z)
    (nests : list Nest) (target : Z) : result (list Nest) :=
  let nest_data := select nests_data target min_score in
  num_consec_detects ← count_max_consec_detects nest_data date_data;
  if bool_decide (min_detections ≤ Z.of_nat (length nest_data))
     || bool_decide (min_consec_detects ≤ num_consec_detects)
  then row ← aggregate target nest_data; Ok (nests ++ [row])
  else Ok nests.

(** [os.path.join] of two components under POSIX. *)
Definition path_join (a b : string) : string :=
  if String.prefix "/" b then b
  else if bool_decide (a = "") then b
  else if bool_decide (String.get (String.length a - 1) a = Some ("/" : ascii))
  then a +:+ b
  else a +:+ "/" +:+ b.

(** The shapefile that [to_file] writes: its path, the geometry type and
    the fields it declares, its records and its reference system. *)
Record ShapeFile : Type := mkShapeFile {
  sf_path : string;
  sf_geometry : string;
  sf_fields : list string;
  sf_records : list Nest;
  sf_crs : string
}.

Definition nest_columns : list string :=
  ["nest_id"; "Site"; "Year"; "xmean"; "ymean"; "first_obs"; "last_obs";
   "num_obs"; "species"; "sum_top1"; "num_top1"; "bird_match"].

(** The [schema] of the branch without nests. *)
Definition empty_schema : string * list (string * string) :=
  ("Polygon",
   [("nest_id", "int"); ("Site", "str"); ("Year", "str"); ("xmean", "float");
    ("ymean", "float"); ("first_obs", "str"); ("last_obs", "str");
    ("num_obs", "int"); ("species", "str"); ("sum_top1", "float");
    ("num_top1", "int"); ("bird_match", "str")]).

(** [GeoDataFrame.to_file] of a frame with the given columns, geometry
    type and rows: the geometry type and the fields declared are those of
    an explicit [schema] when one is passed, and those of the frame
    otherwise. *)
Definition to_file (columns : list string) (geometry : string) (rows : list Nest)
    (filename : string) (schema : option (string * list (string * string)))
    (crs : string) : ShapeFile :=
  match schema with
  | Some sch => mkShapeFile filename sch.1 (sch.2.*1) rows crs
  | None => mkShapeFile filename geometry columns rows crs
  end.

(** The file system as the script meets it: for a path that is not
    empty, whether [os.path.exists] finds it, and the [OSError] subclass
    that [os.makedirs] raises on it, if any ([PermissionError],
    [FileExistsError], [NotADirectoryError], ...). *)
Record FileSystem : Type := mkFileSystem {
  fs_exists : string → bool;
  fs_makedirs : string → option string
}.

(** [os.path.exists]: [os.stat] fails on the empty path, which therefore
    never exists. *)
Definition path_exists (fs : FileSystem) (path : string) : bool :=
  if bool_decide (path = "") then false else fs_exists fs path.

(** [os.makedirs]: on the empty path [mkdir] raises [FileNotFoundError];
    on any other path the file system decides. *)
Definition makedirs (fs : FileSystem) (path : string) : result unit :=
  if bool_decide (path = "") then Raise (OSError "FileNotFoundError")
  else match fs_makedirs fs path with
       | Some name => Raise (OSError name)
       | None => Ok ()
       end.

(** [nests_data] and [crs] are the table and the reference system that
    [geopandas.read_file(nest_file)] returns; the result is the file
    written under [savedir], which is made after the loop when it is not
    there. *)
Definition process_nests (fs : FileSystem) (nests_data : list Detection)
    (crs : string) (year site savedir : string)
    (min_score : Q) (min_detections min_consec_detects : Z) : result ShapeFile :=
  let date_data := survey_dates nests_data in
  let target_inds := unique (target_ind <$> nests_data) in
  nests ← for_each
    (process_target nests_data date_data min_score min_detections min_consec_detects)
    target_inds [];
  _ ← (if negb (path_exists fs savedir) then makedirs fs savedir else Ok ());
  let filename := path_join savedir (site +:+ "_" +:+ year +:+ "_processed_nests.shp") in
  match nests with
  | _ :: _ => Ok (to_file nest_columns "Point" nests filename None crs)
  | [] => Ok (to_file [] "Unknown" [] filename (Some empty_schema) crs)
  end.

(** ** The script *)

(** [s.split(os.path.sep)] under POSIX. *)
Fixpoint split_sep (s : string) : list string :=
  match s with
  | EmptyString => [""]
  | String c s' =>
      if bool_decide (c = ("/" : ascii)) then "" :: split_sep s'
      else match split_sep s' with
           | [] => [String c ""]
           | x :: l => String c x :: l
           end
  end.

(** One turn of the loop of [os.path.normpath] over the components. *)
Definition normpath_step (initial_slashes : nat) (new_comps : list string)
    (comp : string) : list string :=
  if bool_decide (comp = "" ∨ comp = ".") then new_comps
  else if bool_decide (comp ≠ ".."
                       ∨ (initial_slashes = 0%nat ∧ new_comps = [])
                       ∨ (new_comps ≠ [] ∧ last new_comps = Some ".."))
  then new_comps ++ [comp]
  else removelast new_comps.

(** [os.path.normpath] under POSIX: empty and [.] components go, [..]
    takes the component before it when there is one to take, one or two
    leading separators stay and three or more count as one. *)
Definition normpath (path : string) : string :=
  if bool_decide (path = "") then "."
  else
    let initial_slashes :=
      if String.prefix "/" path
      then if String.prefix "//" path && negb (String.prefix "///" path)
           then 2%nat else 1%nat
      else 0%nat in
    let comps := foldl (normpath_step initial_slashes) [] (split_sep path) in
    let path := join "/" comps in
    let path := match initial_slashes with
                | 0%nat => path
                | 1%nat => "/" +:+ path
                | _ => "//" +:+ path
                end in
    if bool_decide (path = "") then "." else path.

(** How the script ends: in the [IndexError] of a component that the
    path lacks, or in the call of [process_nests]. *)
Inductive script_outcome : Type :=
  | IndexError
  | Called (r : result ShapeFile).

(** The script, for the file system, the working directory that
    [tools.get_working_dir()] returns, the path [sys.argv[1]] and the
    table and reference system that reading the file at a path gives. *)
Definition main (fs : FileSystem) (working_dir : string)
    (read_file : string → list Detection * string) (path : string)
    : script_outcome :=
  let split_path := split_sep (normpath path) in
  match split_path !! 5%nat with
  | None => IndexError
  | Some year =>
      match split_path !! 6%nat with
      | None => IndexError
      | Some site =>
          let nestdir :=
            path_join (path_join (path_join working_dir "processed_nests") year)
              site in
          Called (process_nests fs (read_file path).1 (read_file path).2
                    year site nestdir (3 # 10) 3 1)
      end
  end.

(** A component without separator. *)
Fixpoint has_sep (s : string) : bool :=
  match s with
  | EmptyString => false
  | String c s' => bool_decide (c = ("/" : ascii)) || has_sep s'
  end.

(** A component that [normpath] keeps as it is. *)
Definition plain (c : string) : Prop :=
  c ≠ "" ∧ c ≠ "." ∧ c ≠ ".." ∧ has_sep c = false.

(** ** Definitions of the specification *)

(** The effect of one iteration on the state, from the difference [prev]
    before the current one, the current difference [cur], and whether the
    current index is the last one. *)
Definition next_state (prev cur : cell) (last : bool) (st : list Z * Z)
    : list Z * Z :=
  if eq1 cur then
    let c := if eq1 prev then st.2 + 1 else 1 in
    if last then (st.1 ++ [c], c) else (st.1, c)
  else if eq1 prev then (st.1 ++ [st.2], 0)
  else st.

(** The scan as a recursion over the differences after [prev]. *)
Fixpoint scan (prev : cell) (rest : list cell) (st : list Z * Z) : list Z * Z :=
  match rest with
  | [] => st
  | cur :: rest' => scan cur rest' (next_state prev cur (bool_decide (rest' = [])) st)
  end.

(** The rank of a date, in the words of the specification: its 0-based
    position in the survey calendar sorted ascending. *)
Definition rank_of (calendar : list string) (d : string) : option Z :=
  (λ ix, Z.of_nat ix.1) <$> list_find (eq d) (sort_values calendar).

(** The ranks of a target's detection dates, ascending by date. *)
Definition target_ranks (nest_data : list Detection) (calendar : list string)
    : list Z :=
  omap (rank_of calendar) (sort_values (Date <$> nest_data)).

(** [k] consecutive calendar positions from [a] on. *)
Fixpoint block (a : Z) (k : nat) : list Z :=
  match k with
  | O => []
  | S k' => a :: block (a + 1) k'
  end.

(** The numbers of rows in the maximal runs of a rank sequence that goes
    on with [rest] after a run of [len] rows ending at the rank [prev]: a
    run goes on as long as the rank rises by exactly one from one row to
    the next, so that a rank that repeats (a second row of the same date)
    ends a run as a gap does. *)
Fixpoint run_lengths (prev : Z) (len : nat) (rest : list Z) : list nat :=
  match rest with
  | [] => [len]
  | x :: rest' =>
      if bool_decide (x = prev + 1) then run_lengths x (S len) rest'
      else len :: run_lengths x 1 rest'
  end.

(** The number of rows in the longest run of a rank sequence. For ranks
    that are ascending and distinct (one row per date) it is the number
    of dates in the longest run of consecutive calendar positions. *)
Definition longest_run (ranks : list Z) : nat :=
  match ranks with
  | [] => O
  | x :: rest => max_list (run_lengths x 1 rest)
  end.

(** What the scan records of the runs: a run of at least two rows is
    recorded as its number of adjacent pairs. *)
Definition recorded (lens : list nat) : list Z :=
  omap (λ n, if decide (2 ≤ n)%nat then Some (Z.of_nat n - 1) else None) lens.

(** [savedir] is there, or [os.makedirs] makes it. *)
Definition savedir_ready (fs : FileSystem) (savedir : string) : Prop :=
  path_exists fs savedir = true ∨ makedirs fs savedir = Ok ().

(** No two rows of the table differ in Site or Year. *)
Definition one_survey (nests_data : list Detection) : Prop :=
  ∀ r r', r ∈ nests_data → r' ∈ nests_data → Site r = Site r' ∧ Year r = Year r'.

(** The retention rule for a target, from its score-filtered rows and its
    consecutive-run length. *)
Definition retained (min_detections min_consec_detects : Z)
    (nest_data : list Detection) (num_consec_detects : Z) : Prop :=
  min_detections ≤ Z.of_nat (length nest_data)
  ∨ min_consec_detects ≤ num_consec_detects.

(** The summed score and the number of the detections of a target that
    carry a label. *)
Definition label_score (nest_data : list Detection) (l : string) : Q :=
  sum (score <$> filter (λ r, label r = l) nest_data).
Definition label_count (nest_data : list Detection) (l : string) : nat :=
  length (filter (λ r, label r = l) nest_data).

Definition oops : exn := AssertionError "Oops, I shouldn't be here".

Definition not_one_row : exn :=
  AssertionError "date_data should be a Pandas DataFrame with one row".

(** ** Example tables *)

Module Examples.

(** A detection of target [t] on date [d] at Jetport South in 2020. *)
Definition detection (t : Z) (d : string) (sc : Q) (lbl : string)
    (xmin ymin xmax ymax : Q) : Detection :=
  mkDetection "JetportSouth" "2020" d t sc lbl (100 + t) xmin ymin xmax ymax.

Definition on_ (d : string) : Detection :=
  detection 7 d (9 # 10) "Great Egret" 0 0 10 10.

(** Survey calendars of five and of seven dates, in table order. *)
Definition calendar5 : DateRow :=
  mkDateRow "JetportSouth" "2020" ["d3"; "d1"; "d5"; "d2"; "d4"].
Definition calendar7 : DateRow :=
  mkDateRow "JetportSouth" "2020" ["d1"; "d2"; "d3"; "d4"; "d5"; "d6"; "d7"].

Definition at_d2_d3 : list Detection := [on_ "d3"; on_ "d2"].
Definition at_ranks_01256 : list Detection :=
  [on_ "d1"; on_ "d2"; on_ "d3"; on_ "d6"; on_ "d7"].
Definition at_ranks_024 : list Detection := [on_ "d1"; on_ "d3"; on_ "d5"].

(** A target with two rows on one of its three dates. *)
Definition at_d1_d2_d2_d3 : list Detection :=
  [on_ "d1"; on_ "d2"; on_ "d2"; on_ "d3"].

(** Two targets over five survey dates: target 1 on the first two dates
    and, below the default score threshold, on a third one; target 2 on
    two dates that are not adjacent. *)
Definition survey : list Detection :=
  [detection 1 "d1" (9 # 10) "Great Egret" 0 0 10 10;
   detection 1 "d2" (8 # 10) "Great Egret" 2 2 12 12;
   detection 1 "d4" (1 # 10) "White Ibis" 1 1 11 11;
   detection 2 "d3" (9 # 10) "White Ibis" 50 50 60 60;
   detection 2 "d5" (9 # 10) "White Ibis" 52 52 62 62].

(** One target with two boxes above the score threshold, of different
    labels, and one box below it. *)
Definition boxes : list Detection :=
  [detection 5 "d1" (9 # 10) "Great Egret" 0 0 10 10;
   detection 5 "d2" (5 # 10) "White Ibis" 4 4 14 14;
   detection 5 "d3" (1 # 10) "White Ibis" 100 100 200 200].

(** One target whose best single detection is a Great Egret and whose
    best summed score is that of the White Ibis. *)
Definition labels : list Detection :=
  [detection 3 "d1" (9 # 10) "Great Egret" 0 0 10 10;
   detection 3 "d2" (5 # 10) "White Ibis" 0 0 10 10;
   detection 3 "d3" (5 # 10) "White Ibis" 0 0 10 10;
   detection 3 "d4" (2 # 10) "White Ibis" 0 0 10 10].

(** A file system without any directory, on which every directory can be
    made. *)
Definition disk : FileSystem := mkFileSystem (λ _, false) (λ _, None).

(** A file system without any directory and without the right to make
    one. *)
Definition locked : FileSystem :=
  mkFileSystem (λ _, false) (λ _, Some "PermissionError").

(** Reading the survey table at any path. *)
Definition read_survey (path : string) : list Detection * string :=
  (survey, "EPSG:32617").

(** The survey table with one more detection, of another site. *)
Definition two_sites : list Detection :=
  survey
  ++ [mkDetection "Vacation" "2020" "d1" 9 (9 # 10) "White Ibis" 109 0 0 10 10].

End Examples.

(** ** Tactics *)

(** Case analysis on the membership [H] in an explicit list. *)
Ltac elem_of_cases H :=
  repeat (apply elem_of_cons in H as [->|H]); [..|by apply elem_of_nil in H].

(** A closed decidable proposition, by evaluation. *)
Ltac by_eval := apply (bool_decide_unpack _); by vm_compute.

(** ** The scan of the difference series *)

Section scan.

Lemma ne1_negb x : ne1 x = negb (eq1 x).
Proof. destruct x as [|z]; [done|]. simpl. by rewrite bool_decide_not. Qed.

Lemma at_Some {A} (l : list A) i x : l !! i = Some x → at_ l i = Ok x.
Proof. unfold at_. by intros ->. Qed.

(** In range, the body is [next_state] and raises nothing. *)
Lemma scan_body_next d st i cur prev :
  d !! i = Some cur → d !! (i - 1)%nat = Some prev →
  scan_body d st i
  = Ok (next_state prev cur (bool_decide (i + 1 = length d)%nat) st).
Proof.
  intros Hc Hp. destruct st as [al c]. unfold scan_body, next_state.
  rewrite (at_Some _ _ _ Hc), (at_Some _ _ _ Hp). simpl.
  rewrite !ne1_negb.
  destruct (eq1 cur), (eq1 prev); simpl; by repeat case_bool_decide.
Qed.

Lemma for_each_scan d i p rest st :
  d !! i = Some p → drop (S i) d = rest →
  for_each (scan_body d) (seq (S i) (length rest)) st = Ok (scan p rest st).
Proof.
  revert i p st. induction rest as [|cur rest IH]; intros i p st Hp Hd; [done|].
  assert (Hc : d !! S i = Some cur).
  { pose proof (lookup_drop d (S i) 0) as H. rewrite Hd, Nat.add_0_r in H.
    by rewrite <-H. }
  assert (Hr : drop (S (S i)) d = rest).
  { replace (S (S i)) with (S i + 1)%nat by lia. by rewrite <-drop_drop, Hd. }
  simpl. rewrite (scan_body_next _ _ _ cur p); [|done|by replace (S i - 1)%nat with i by lia].
  simpl. rewrite (IH _ cur); [|done..]. do 3 f_equal.
  apply bool_decide_ext.
  apply (f_equal length) in Hd. rewrite length_drop in Hd. simpl in Hd.
  destruct rest; simpl in *; split; intros; try done; lia.
Qed.

Lemma for_each_scan_diff d :
  for_each (scan_body d) (seq 1 (length d - 1)) ([], 0)
  = Ok (match d with [] => ([], 0) | p :: rest => scan p rest ([], 0) end).
Proof.
  destruct d as [|p rest]; [done|].
  simpl length. rewrite Nat.sub_succ, Nat.sub_0_r.
  by apply (for_each_scan (p :: rest) 0).
Qed.

Lemma foldl_max_Z l x :
  let m := foldl (λ m y, if y >? m then y else m) x l in
  m ∈ x :: l ∧ ∀ y, y ∈ x :: l → y ≤ m.
Proof.
  revert x. induction l as [|y l IH]; intros x; simpl.
  - split; [left|]. intros y ->%list_elem_of_singleton. lia.
  - destruct (IH (if y >? x then y else x)) as [Hin Hle]. split.
    + apply elem_of_cons in Hin as [Hin|Hin]; [|by do 2 right].
      rewrite Hin. destruct (y >? x); [right|]; left.
    + intros z Hz.
      assert (Hm := Hle _ ltac:(left)).
      apply elem_of_cons in Hz as [->|[->|Hz]%elem_of_cons].
      * destruct (Z.gtb_spec y x); lia.
      * destruct (Z.gtb_spec y x); lia.
      * apply Hle. by right.
Qed.

Lemma py_max_Z l :
  l ≠ [] → ∃ m, py_max Z.gtb l = Ok m ∧ m ∈ l ∧ ∀ x, x ∈ l → x ≤ m.
Proof.
  destruct l as [|x l]; [done|]. intros _.
  eexists; split; [done|]. apply foldl_max_Z.
Qed.

(** The scan of any difference series ends without an exception: in the
    maximum of the recorded counts, or in 0 when none was recorded. *)
Lemma max_consec_of_diff_scan d :
  ∃ n, max_consec_of_diff d = Ok n ∧
    let all := match d with [] => [] | p :: rest => (scan p rest ([], 0)).1 end in
    (all = [] ∧ n = 0) ∨ (n ∈ all ∧ ∀ x, x ∈ all → x ≤ n).
Proof.
  unfold max_consec_of_diff. rewrite for_each_scan_diff. simpl.
  destruct d as [|p rest]; simpl; [by eexists; split; [|left]|].
  destruct (scan p rest ([], 0)) as [all c]. simpl.
  destruct all as [|a all]; [by eexists; split; [|left]|].
  destruct (py_max_Z (a :: all)) as (m & -> & Hm); [done|].
  eexists; split; [done|]. by right.
Qed.

Lemma diff_from_nil p l : diff_from p l = [] ↔ l = [].
Proof. by destruct l. Qed.

Lemma run_lengths_cons x len y rest :
  run_lengths x len (y :: rest)
  = if bool_decide (y = x + 1) then run_lengths y (S len) rest
    else len :: run_lengths y 1 rest.
Proof. done. Qed.

Lemma recorded_cons n lens :
  recorded (n :: lens) = recorded [n] ++ recorded lens.
Proof. unfold recorded. simpl. by case_decide. Qed.

(** One iteration before the last, on the ranks [x] and then [y], with
    a run of [len] rows ending at [x]. *)
Lemma next_state_rank p x y len all :
  eq1 p = bool_decide (2 ≤ len)%nat → (1 ≤ len)%nat →
  next_state p (Num (y - x)) false (all, Z.of_nat len - 1)
  = if bool_decide (y = x + 1) then (all, Z.of_nat (S len) - 1)
    else (all ++ recorded [len], Z.of_nat 1 - 1).
Proof.
  intros Hp Hlen. unfold next_state, recorded. simpl. rewrite Hp.
  repeat case_bool_decide; simpl; repeat case_decide; simpl;
    try lia; rewrite ?app_nil_r; try done; f_equal; lia.
Qed.

(** On a series of ranks, the scan records the runs of [run_lengths]. *)
Lemma scan_ranks rest : ∀ y x len p all,
  eq1 p = bool_decide (2 ≤ len)%nat → (1 ≤ len)%nat →
  (scan p (diff_from (Num x) (Num <$> (y :: rest))) (all, Z.of_nat len - 1)).1
  = all ++ recorded (run_lengths x len (y :: rest)).
Proof.
  induction rest as [|z rest IH]; intros y x len p all Hp Hlen.
  - simpl. unfold next_state, recorded. simpl. rewrite Hp.
    repeat case_bool_decide; simpl; repeat case_decide; simpl;
      try lia; rewrite ?app_nil_r; try done; do 2 f_equal; lia.
  - change (diff_from (Num x) (Num <$> y :: z :: rest))
      with (Num (y - x) :: diff_from (Num y) (Num <$> z :: rest)).
    cbn [scan]. rewrite (bool_decide_eq_false_2 (_ = [])) by done.
    rewrite (run_lengths_cons x), next_state_rank by done.
    destruct (bool_decide_reflect (y = x + 1)) as [Hyx|Hyx].
    + apply IH; [|lia]. simpl. by rewrite !bool_decide_eq_true_2 by lia.
    + rewrite IH; [|simpl; by rewrite !bool_decide_eq_false_2 by lia|lia].
      by rewrite <-app_assoc, <-recorded_cons.
Qed.

(** The maximum of the recorded counts is one less than the longest
    run. *)
Lemma recorded_max lens n :
  lens ≠ [] → Forall (λ k, 1 ≤ k)%nat lens →
  (recorded lens = [] ∧ n = 0) ∨
    (n ∈ recorded lens ∧ ∀ x, x ∈ recorded lens → x ≤ n) →
  n = Z.of_nat (max_list lens) - 1.
Proof.
  intros Hne Hall Hn.
  assert (Hmax := max_list_elem_of lens Hne).
  assert (1 ≤ max_list lens)%nat
    by (rewrite Forall_forall in Hall; by apply Hall).
  assert (Hrec : ∀ k, k ∈ lens → (2 ≤ k)%nat → Z.of_nat k - 1 ∈ recorded lens).
  { intros k Hk H2. apply list_elem_of_omap. exists k. by rewrite decide_True. }
  destruct Hn as [[Hnil ->]|[Hin Hle]].
  - destruct (decide (2 ≤ max_list lens)%nat) as [H2|]; [|lia].
    apply Hrec in H2; [|done]. rewrite Hnil in H2. by apply elem_of_nil in H2.
  - apply list_elem_of_omap in Hin as (k & Hk & Hkn).
    case_decide as H2; [|done]. injection Hkn as <-.
    apply max_list_elem_of_le in Hk.
    assert (Z.of_nat (max_list lens) - 1 ≤ Z.of_nat k - 1); [|lia].
    apply Hle, Hrec; [done|lia].
Qed.

Lemma run_lengths_pos rest : ∀ x len,
  (1 ≤ len)%nat → Forall (λ k, 1 ≤ k)%nat (run_lengths x len rest).
Proof.
  induction rest as [|y rest IH]; intros x len Hlen; simpl.
  - by constructor.
  - case_bool_decide; [apply IH; lia|]. constructor; [done|]. by apply IH.
Qed.

Lemma run_lengths_nonempty rest x len : run_lengths x len rest ≠ [].
Proof.
  revert x len. induction rest as [|y rest IH]; intros x len; simpl; [done|].
  by case_bool_decide.
Qed.

(** The scan of the differences of a series of ranks. *)
Lemma max_consec_of_ranks ranks :
  ranks ≠ [] →
  max_consec_of_diff (diff (Num <$> ranks)) = Ok (Z.of_nat (longest_run ranks) - 1).
Proof.
  intros Hne. destruct (max_consec_of_diff_scan (diff (Num <$> ranks)))
    as (n & -> & Hn). f_equal.
  destruct ranks as [|x [|y rest]]; [done|..].
  - simpl in Hn. destruct Hn as [[_ ->]|[[]%elem_of_nil _]]. done.
  - unfold longest_run. apply recorded_max;
      [apply run_lengths_nonempty|by apply run_lengths_pos|].
    rewrite <-(app_nil_l (recorded _)).
    rewrite <-(scan_ranks rest y x 1%nat NaN []) by done. exact Hn.
Qed.

End scan.

(** ** Ranks in the survey calendar *)

Section ranks.

Lemma sort_values_Permutation l : sort_values l ≡ₚ l.
Proof. apply merge_sort_Permutation. Qed.

Lemma elem_of_sort_values l d : d ∈ sort_values l ↔ d ∈ l.
Proof. by rewrite sort_values_Permutation. Qed.

Lemma foldl_insert_lookup (l : list string) : ∀ (g : nat → nat) (m : gmap string Z) d,
  NoDup l →
  foldl (λ m kv, <[kv.2 := Z.of_nat kv.1]> m) m (imap (λ i x, (g i, x)) l) !! d
  = match list_find (eq d) l with
    | Some ix => Some (Z.of_nat (g ix.1))
    | None => m !! d
    end.
Proof.
  induction l as [|x l IH]; intros g m d Hnd; [done|].
  apply NoDup_cons in Hnd as [Hx Hnd].
  rewrite imap_cons. cbn [foldl list_find].
  change ((λ i x, (g i, x)) ∘ S) with (λ i (x : string), ((g ∘ S) i, x)).
  rewrite IH by done. cbn [fst snd].
  destruct (list_find (eq d) l) as [[i y]|] eqn:Hfind; simpl.
  - apply list_find_Some in Hfind as (Hi & <- & _).
    rewrite decide_False; [done|].
    intros ->. apply Hx. by eapply list_elem_of_lookup_2.
  - case_decide as Hd; simpl.
    + subst. by rewrite lookup_insert_eq.
    + by rewrite lookup_insert_ne.
Qed.

(** The dict of the code holds the rank of the specification. *)
Lemma dates_dict_rank_of calendar d :
  NoDup calendar →
  dates_dict (sort_values calendar) !! d = rank_of calendar d.
Proof.
  intros Hnd. unfold dates_dict, rank_of.
  change pair with (λ (i : nat) (x : string), (id i, x)).
  rewrite foldl_insert_lookup by by rewrite sort_values_Permutation.
  by destruct (list_find _ _).
Qed.

Lemma rank_of_is_Some calendar d :
  d ∈ calendar → is_Some (rank_of calendar d).
Proof.
  intros Hd. unfold rank_of. apply fmap_is_Some.
  apply (list_find_elem_of _ _ d); [|done]. by apply elem_of_sort_values.
Qed.

Lemma date_ranks_cells nest_data calendar :
  NoDup calendar →
  date_ranks nest_data calendar
  = (λ d, from_option Num NaN (rank_of calendar d))
      <$> sort_values (Date <$> nest_data).
Proof.
  intros Hnd. unfold date_ranks, map_dict.
  apply list_fmap_ext. intros _ d _. by rewrite dates_dict_rank_of.
Qed.

(** When the calendar holds every date of the target, no cell is [NaN]. *)
Lemma date_ranks_target_ranks nest_data calendar :
  NoDup calendar → (∀ r, r ∈ nest_data → Date r ∈ calendar) →
  date_ranks nest_data calendar = Num <$> target_ranks nest_data calendar.
Proof.
  intros Hnd Hin. rewrite date_ranks_cells by done. unfold target_ranks.
  assert (Hall : ∀ d, d ∈ sort_values (Date <$> nest_data) → d ∈ calendar).
  { intros d (r & -> & Hr)%elem_of_sort_values%list_elem_of_fmap. by apply Hin. }
  induction (sort_values (Date <$> nest_data)) as [|d l IH]; [done|].
  destruct (rank_of_is_Some calendar d) as [z Hz]; [apply Hall; left|].
  simpl. rewrite Hz. simpl. f_equal. apply IH. intros. apply Hall. by right.
Qed.

Lemma target_ranks_length nest_data calendar :
  (∀ r, r ∈ nest_data → Date r ∈ calendar) →
  length (target_ranks nest_data calendar) = length nest_data.
Proof.
  intros Hin. unfold target_ranks.
  rewrite <-(length_fmap Date nest_data),
    <-(Permutation_length (sort_values_Permutation (Date <$> nest_data))).
  assert (Hall : ∀ d, d ∈ sort_values (Date <$> nest_data) → d ∈ calendar).
  { intros d (r & -> & Hr)%elem_of_sort_values%list_elem_of_fmap. by apply Hin. }
  induction (sort_values (Date <$> nest_data)) as [|d l IH]; [done|].
  destruct (rank_of_is_Some calendar d) as [z Hz]; [apply Hall; left|].
  simpl. rewrite Hz. simpl. f_equal. apply IH. intros. apply Hall. by right.
Qed.

End ranks.

(** ** Runs of consecutive calendar positions *)

Section runs.

Lemma run_lengths_ge rest : ∀ x len,
  (len ≤ max_list (run_lengths x len rest))%nat.
Proof.
  induction rest as [|y rest IH]; intros x len; simpl; [lia|].
  case_bool_decide; simpl; [|lia]. specialize (IH y (S len)). lia.
Qed.

(** A block at the front goes on the run that ends at the front. *)
Lemma run_lengths_front rest : ∀ x len k post,
  x :: rest = block x (S k) ++ post →
  (len + k ≤ max_list (run_lengths x len rest))%nat.
Proof.
  induction rest as [|y rest IH]; intros x len k post Heq.
  - destruct k; [simpl; lia|]. simplify_eq/=.
  - destruct k as [|k]; [rewrite Nat.add_0_r; apply run_lengths_ge|].
    simpl in Heq. injection Heq as -> Heq.
    simpl. rewrite bool_decide_eq_true_2 by done.
    specialize (IH (x + 1) (S len) k post). simpl in IH.
    rewrite <-Heq in IH. specialize (IH eq_refl). lia.
Qed.

(** No block of the ranks is longer than the longest run. *)
Lemma run_lengths_block rest : ∀ x len pre a k post,
  (1 ≤ len)%nat →
  x :: rest = pre ++ block a k ++ post →
  (k ≤ max_list (run_lengths x len rest))%nat.
Proof.
  induction rest as [|y rest IH]; intros x len pre a k post Hlen Heq.
  - apply (f_equal length) in Heq. rewrite !length_app in Heq. simpl in Heq.
    assert (length (block a k) = k) as Hk.
    { clear. revert a. induction k; intros; simpl; [done|]. by f_equal. }
    simpl. lia.
  - destruct k as [|k]; [lia|].
    destruct pre as [|x' pre].
    + simpl in Heq. injection Heq as <- Heq.
      pose proof (run_lengths_front (y :: rest) x len k post) as Hf.
      simpl in Hf. rewrite <-Heq in Hf. specialize (Hf eq_refl).
      rewrite run_lengths_cons. lia.
    + simpl in Heq. injection Heq as <- Heq.
      simpl. case_bool_decide.
      * by apply (IH y (S len) pre a (S k) post); [lia|].
      * simpl. pose proof (IH y 1%nat pre a (S k) post (le_n _) Heq). lia.
Qed.

(** Every run is a block of the ranks: the one at the front, which goes
    on the [len] dates before it, or one further on. *)
Lemma run_lengths_elem_of rest : ∀ x len n,
  n ∈ run_lengths x len rest →
  (∃ j post, x :: rest = block x (S j) ++ post ∧ n = (len + j)%nat)
  ∨ (∃ pre a post, x :: rest = pre ++ block a n ++ post).
Proof.
  induction rest as [|y rest IH]; intros x len n Hn; simpl in Hn.
  - apply list_elem_of_singleton in Hn as ->.
    left. exists 0%nat, []. split; [done|lia].
  - destruct (bool_decide_reflect (y = x + 1)) as [->|Hy].
    + apply IH in Hn as [(j & post & Heq & ->)|(pre & a & post & Heq)].
      * left. exists (S j), post. split; [|lia].
        change (block x (S (S j))) with (x :: block (x + 1) (S j)).
        simpl. by rewrite Heq.
      * right. exists (x :: pre), a, post. simpl. by rewrite Heq.
    + apply elem_of_cons in Hn as [->|Hn].
      * left. exists 0%nat, (y :: rest). split; [done|lia].
      * right.
        apply IH in Hn as [(j & post & Heq & ->)|(pre & a & post & Heq)].
        -- exists [x], y, post. simpl. by rewrite Heq.
        -- exists (x :: pre), a, post. simpl. by rewrite Heq.
Qed.

(** What [longest_run] is: the length of a block of the ranks that no
    other block exceeds. *)
Lemma longest_run_block ranks :
  ranks ≠ [] →
  (∃ pre a post, ranks = pre ++ block a (longest_run ranks) ++ post)
  ∧ ∀ pre a k post, ranks = pre ++ block a k ++ post → (k ≤ longest_run ranks)%nat.
Proof.
  destruct ranks as [|x rest]; [done|]. intros _. split.
  - unfold longest_run.
    pose proof (max_list_elem_of _ (run_lengths_nonempty rest x 1%nat)) as Hin.
    apply run_lengths_elem_of in Hin as [(j & post & Heq & Hj)|Hin]; [|done].
    exists [], x, post. rewrite Hj. done.
  - intros pre a k post Heq. by apply (run_lengths_block _ _ _ pre a k post).
Qed.

Lemma longest_run_unique ranks pre a k post :
  ranks = pre ++ block a k ++ post → (1 ≤ k)%nat →
  (∀ pre' a' k' post', ranks = pre' ++ block a' k' ++ post' → (k' ≤ k)%nat) →
  longest_run ranks = k.
Proof.
  intros Heq Hk Hmax.
  assert (ranks ≠ []) as Hne.
  { destruct k; [lia|]. rewrite Heq. by destruct pre. }
  destruct (longest_run_block ranks Hne) as [(pre' & a' & post' & Heq') Hle].
  apply Hmax in Heq'. apply Hle in Heq. lia.
Qed.

End runs.

(** ** Properties of [count_max_consec_detects] *)

Section count_max_consec_detects.

Lemma count_max_one_row nest_data row :
  count_max_consec_detects nest_data [row]
  = max_consec_of_diff (diff (date_ranks nest_data (dr_Date row))).
Proof. done. Qed.

Lemma eq1_sub_cells (a b : option Z) :
  (∀ x y, a = Some x → b = Some y → y ≠ x + 1) →
  eq1 (sub (from_option Num NaN b) (from_option Num NaN a)) = false.
Proof.
  intros H. destruct a as [x|], b as [y|]; simpl; try done.
  apply bool_decide_eq_false_2. specialize (H x y eq_refl eq_refl). lia.
Qed.

Lemma diff_from_no_adjacent l : ∀ prev,
  (∀ x y, x ∈ prev :: l → y ∈ prev :: l → eq1 (sub y x) = false) →
  Forall (λ c, eq1 c = false) (diff_from prev l).
Proof.
  induction l as [|x l IH]; intros prev H; simpl; [done|].
  constructor.
  - apply H; [left|right; left].
  - apply IH. intros. apply H; by right.
Qed.

Lemma scan_no_adjacent rest : ∀ p st,
  eq1 p = false → Forall (λ c, eq1 c = false) rest → scan p rest st = st.
Proof.
  induction rest as [|cur rest IH]; intros p st Hp Hall; [done|].
  apply Forall_cons in Hall as [Hcur Hall].
  simpl. unfold next_state. rewrite Hcur, Hp. by apply IH.
Qed.

Lemma max_consec_of_diff_no_adjacent l :
  (∀ x y, x ∈ l → y ∈ l → eq1 (sub y x) = false) →
  max_consec_of_diff (diff l) = Ok 0.
Proof.
  intros H. unfold max_consec_of_diff. rewrite for_each_scan_diff.
  destruct l as [|x l]; [done|]. simpl.
  rewrite scan_no_adjacent; [done..|]. by apply diff_from_no_adjacent.
Qed.

Lemma count_max_Ok_one_row nest_data date_data n :
  count_max_consec_detects nest_data date_data = Ok n → length date_data = 1%nat.
Proof.
  unfold count_max_consec_detects. by case_bool_decide.
Qed.

Lemma count_max_one_row_Ok nest_data date_data :
  length date_data = 1%nat → ∃ n, count_max_consec_detects nest_data date_data = Ok n.
Proof.
  intros Hl. destruct date_data as [|row [|??]]; try done.
  rewrite count_max_one_row.
  destruct (max_consec_of_diff_scan (diff (date_ranks nest_data (dr_Date row))))
    as (n & Hn & _).
  by exists n.
Qed.

End count_max_consec_detects.

(** C2. When no two detection dates of the target are adjacent in the
    survey calendar, [count_max_consec_detects] returns 0; this holds in
    particular for a target with one date and for one with none. *)
Theorem count_max_consec_detects_no_adjacent nest_data row :
  NoDup (dr_Date row) →
  (∀ r r' a b, r ∈ nest_data → r' ∈ nest_data →
     rank_of (dr_Date row) (Date r) = Some a →
     rank_of (dr_Date row) (Date r') = Some b → b ≠ a + 1) →
  count_max_consec_detects nest_data [row] = Ok 0.
Proof.
  intros Hnd Hadj.
  rewrite count_max_one_row, date_ranks_cells by done.
  apply max_consec_of_diff_no_adjacent.
  intros x y (d & -> & Hd)%list_elem_of_fmap (d' & -> & Hd')%list_elem_of_fmap.
  apply elem_of_sort_values, list_elem_of_fmap in Hd as (r & -> & Hr).
  apply elem_of_sort_values, list_elem_of_fmap in Hd' as (r' & -> & Hr').
  apply eq1_sub_cells. intros a b Ha Hb. by apply (Hadj r r').
Qed.

(** C2 at the ranks 0, 2 and 4 of a calendar of five dates. *)
Lemma count_max_consec_detects_no_adjacent_witness :
  NoDup (dr_Date Examples.calendar5)
  ∧ target_ranks Examples.at_ranks_024 (dr_Date Examples.calendar5) = [0; 2; 4]
  ∧ count_max_consec_detects Examples.at_ranks_024 [Examples.calendar5] = Ok 0.
Proof.
  assert (Hnd : NoDup (dr_Date Examples.calendar5)) by by_eval.
  split_and!; [done|by vm_compute|].
  apply count_max_consec_detects_no_adjacent; [done|].
  intros r r' a b Hr Hr' Ha Hb. unfold Examples.at_ranks_024 in Hr, Hr'.
  elem_of_cases Hr; elem_of_cases Hr'; vm_compute in Ha, Hb; simplify_eq; lia.
Defined.

(** A target with a single detection date, on any calendar. *)
Lemma count_max_consec_detects_single r row :
  count_max_consec_detects [r] [row] = Ok 0.
Proof.
  rewrite count_max_one_row. unfold date_ranks.
  assert (sort_values (Date <$> [r]) = [Date r]) as -> by done.
  done.
Qed.

(** A target without detections, on any calendar. *)
Lemma count_max_consec_detects_none row :
  count_max_consec_detects [] [row] = Ok 0.
Proof. done. Qed.

(** C4. [count_max_consec_detects] returns a count when [date_data] has
    exactly one row, and raises the assertion error on the number of rows
    when it has any other number of them, more than one in particular. *)
Theorem count_max_consec_detects_date_rows nest_data date_data :
  (length date_data = 1%nat →
   ∃ n, count_max_consec_detects nest_data date_data = Ok n)
  ∧ (length date_data ≠ 1%nat →
     count_max_consec_detects nest_data date_data = Raise not_one_row)
  ∧ ((1 < length date_data)%nat →
     count_max_consec_detects nest_data date_data = Raise not_one_row).
Proof.
  assert (length date_data ≠ 1%nat →
          count_max_consec_detects nest_data date_data = Raise not_one_row) as Hne.
  { intros Hl. unfold count_max_consec_detects. by rewrite bool_decide_eq_false_2. }
  split_and!; [apply count_max_one_row_Ok|done|].
  intros Hl. apply Hne. lia.
Qed.

(** C4 on two calendar rows, and on one. *)
Lemma count_max_consec_detects_date_rows_witness :
  count_max_consec_detects Examples.at_d2_d3 [Examples.calendar5; Examples.calendar7]
    = Raise not_one_row
  ∧ ∃ n, count_max_consec_detects Examples.at_d2_d3 [Examples.calendar5] = Ok n.
Proof.
  split.
  - apply (count_max_consec_detects_date_rows _ [_; _]). simpl. lia.
  - by apply (count_max_consec_detects_date_rows _ [_]).
Defined.

(** C8. Whatever the difference series, the state and the index, the
    body of the scan takes one of its four explicit cases and never its
    final [else]; so [count_max_consec_detects] never raises the assertion
    error of that branch. *)
Theorem scan_else_unreachable :
  (∀ cur prev,
     eq1 cur && ne1 prev || eq1 cur && eq1 prev
     || ne1 cur && eq1 prev || ne1 cur && ne1 prev = true)
  ∧ (∀ d st i, scan_body d st i ≠ Raise oops)
  ∧ (∀ nest_data date_data,
       count_max_consec_detects nest_data date_data ≠ Raise oops).
Proof.
  split_and!.
  - intros cur prev. rewrite !ne1_negb. by destruct (eq1 cur), (eq1 prev).
  - intros d [al c] i. unfold scan_body, at_.
    destruct (d !! i) as [cur|]; [|done]. simpl.
    destruct (d !! (i - 1)%nat) as [prev|]; [|done]. simpl.
    rewrite !ne1_negb.
    destruct (eq1 cur), (eq1 prev); simpl; by repeat case_bool_decide.
  - intros nest_data date_data.
    destruct (decide (length date_data = 1%nat)) as [Hl|Hl].
    + by destruct (count_max_one_row_Ok nest_data date_data Hl) as [n ->].
    + unfold count_max_consec_detects. by rewrite bool_decide_eq_false_2.
Qed.

(** C9. When the calendar holds every detection date of the target and
    the ranks of these dates contain a block of [k >= 2] consecutive
    positions that no other block exceeds, [count_max_consec_detects]
    returns [k - 1]: the adjacent pairs of the block, not its dates. *)
Theorem count_max_consec_detects_adjacent_pairs nest_data row pre a k post :
  NoDup (dr_Date row) →
  (∀ r, r ∈ nest_data → Date r ∈ dr_Date row) →
  target_ranks nest_data (dr_Date row) = pre ++ block a k ++ post →
  (2 ≤ k)%nat →
  (∀ pre' a' k' post',
     target_ranks nest_data (dr_Date row) = pre' ++ block a' k' ++ post' →
     (k' ≤ k)%nat) →
  count_max_consec_detects nest_data [row] = Ok (Z.of_nat k - 1).
Proof.
  intros Hnd Hin Hblock Hk Hmax.
  rewrite count_max_one_row, date_ranks_target_ranks by done.
  rewrite max_consec_of_ranks.
  - by rewrite (longest_run_unique _ pre a k post Hblock ltac:(lia) Hmax).
  - rewrite Hblock. destruct k; [lia|]. by destruct pre.
Qed.

(** C9 at the ranks 0, 1, 2, 5, 6: the block of three dates gives 2. *)
Lemma count_max_consec_detects_adjacent_pairs_witness :
  target_ranks Examples.at_ranks_01256 (dr_Date Examples.calendar7)
    = [] ++ block 0 3 ++ [5; 6]
  ∧ count_max_consec_detects Examples.at_ranks_01256 [Examples.calendar7] = Ok 2.
Proof.
  assert (Hr : target_ranks Examples.at_ranks_01256 (dr_Date Examples.calendar7)
               = [] ++ block 0 3 ++ [5; 6]) by (by vm_compute).
  split; [done|].
  apply (count_max_consec_detects_adjacent_pairs _ _ [] 0 3 [5; 6]).
  - by_eval.
  - intros r Hr'. unfold Examples.at_ranks_01256 in Hr'. elem_of_cases Hr'; by_eval.
  - done.
  - lia.
  - intros pre' a' k' post' Heq.
    rewrite Hr in Heq.
    apply (proj2 (longest_run_block ([] ++ block 0 3 ++ [5; 6]) ltac:(done))) in Heq.
    exact Heq.
Defined.

(** ** Grouping *)

Section groupby.
Context {R K : Type} `{EqDecision K}.

Lemma elem_of_unique (l : list K) x : x ∈ unique l ↔ x ∈ l.
Proof.
  induction l as [|y l IH]; [done|]. simpl.
  rewrite !elem_of_cons, list_elem_of_filter, IH.
  destruct (decide (x = y)); naive_solver.
Qed.

Lemma NoDup_unique (l : list K) : NoDup (unique l).
Proof.
  induction l as [|y l IH]; simpl; [constructor|].
  apply NoDup_cons. split; [|by apply NoDup_filter].
  rewrite list_elem_of_filter. naive_solver.
Qed.

Lemma unique_constant (l : list K) k :
  l ≠ [] → (∀ x, x ∈ l → x = k) → unique l = [k].
Proof.
  destruct l as [|y l]; [done|]. intros _ Hall. simpl.
  rewrite (Hall y) by left. f_equal.
  apply elem_of_nil_inv. intros x [Hx Hin]%list_elem_of_filter.
  rewrite elem_of_unique in Hin. apply Hx, Hall. by right.
Qed.

Lemma filter_all (P : R → Prop) `{∀ x, Decision (P x)} (l : list R) :
  (∀ x, x ∈ l → P x) → filter P l = l.
Proof.
  induction l as [|x l IH]; intros Hall; [done|].
  rewrite filter_cons_True by (apply Hall; left).
  f_equal. apply IH. intros. apply Hall. by right.
Qed.

Lemma filter_ext_elem (P Q : R → Prop)
    `{∀ x, Decision (P x)} `{∀ x, Decision (Q x)} (l : list R) :
  (∀ x, x ∈ l → P x ↔ Q x) → filter P l = filter Q l.
Proof.
  induction l as [|x l IH]; intros Hall; [done|].
  rewrite !filter_cons. assert (P x ↔ Q x) by (apply Hall; left).
  rewrite IH by (intros; apply Hall; by right).
  repeat case_decide; naive_solver.
Qed.

Variable le : K → K → bool.
Variable key : R → K.

Lemma elem_of_groupby rows g :
  g ∈ groupby le key rows
  ↔ (∃ r, r ∈ rows ∧ key r = g.1) ∧ g.2 = filter (λ r, key r = g.1) rows.
Proof.
  unfold groupby. rewrite list_elem_of_fmap. split.
  - intros (k & -> & Hk). simpl. split; [|done].
    rewrite merge_sort_Permutation, elem_of_unique, list_elem_of_fmap in Hk.
    naive_solver.
  - intros [(r & Hr & Hk) Hg]. exists g.1. split; [by destruct g; simplify_eq/=|].
    rewrite merge_sort_Permutation, elem_of_unique, list_elem_of_fmap.
    naive_solver.
Qed.

Lemma length_groupby rows :
  length (groupby le key rows) = length (unique (key <$> rows)).
Proof.
  unfold groupby. rewrite length_fmap.
  apply Permutation_length, merge_sort_Permutation.
Qed.

Lemma groupby_nonempty rows : rows ≠ [] → groupby le key rows ≠ [].
Proof.
  intros Hne Hnil. apply (f_equal length) in Hnil.
  rewrite length_groupby in Hnil. by destruct rows.
Qed.

(** A table of a single key is a single group. *)
Lemma groupby_single rows k :
  rows ≠ [] → (∀ r, r ∈ rows → key r = k) → groupby le key rows = [(k, rows)].
Proof.
  intros Hne Hall. unfold groupby.
  rewrite (unique_constant _ k).
  - simpl. do 2 f_equal. by apply filter_all.
  - by destruct rows.
  - intros x (r & -> & Hr)%list_elem_of_fmap. by apply Hall.
Qed.

(** A single group is a table of a single key. *)
Lemma groupby_length_1 rows :
  length (groupby le key rows) = 1%nat →
  ∀ r r', r ∈ rows → r' ∈ rows → key r = key r'.
Proof.
  rewrite length_groupby. intros Hl.
  destruct (unique (key <$> rows)) as [|k [|??]] eqn:Hu; [done| |done].
  assert (∀ r, r ∈ rows → key r = k) as Hk.
  { intros r Hr. apply (list_elem_of_fmap_2 key) in Hr.
    rewrite <-elem_of_unique, Hu in Hr. by apply list_elem_of_singleton in Hr. }
  intros r r' Hr Hr'. by rewrite (Hk r), (Hk r').
Qed.

End groupby.

(** ** The aggregation of a target *)

Section aggregate.

Lemma foldl_max_Q l x :
  let m := foldl (λ m y, if negb (Qle_bool y m) then y else m) x l in
  m ∈ x :: l ∧ ∀ y, y ∈ x :: l → (y <= m)%Q.
Proof.
  revert x. induction l as [|y l IH]; intros x; simpl.
  - split; [left|]. intros y ->%list_elem_of_singleton. apply Qle_refl.
  - destruct (IH (if negb (Qle_bool y x) then y else x)) as [Hin Hle]. split.
    + apply elem_of_cons in Hin as [Hin|Hin]; [|by do 2 right].
      rewrite Hin. destruct (negb (Qle_bool y x)); [right|]; left.
    + intros z Hz.
      assert (Hm := Hle _ ltac:(left)).
      assert (x <= foldl (λ m y, if negb (Qle_bool y m) then y else m)
                     (if negb (Qle_bool y x) then y else x) l
              ∧ y <= foldl (λ m y, if negb (Qle_bool y m) then y else m)
                       (if negb (Qle_bool y x) then y else x) l)%Q as [Hx Hy].
      { destruct (Qle_bool y x) eqn:Hyx; simpl in *.
        - apply Qle_bool_iff in Hyx. split; [done|by eapply Qle_trans].
        - split; [|done]. eapply Qle_trans; [|done].
          apply Qlt_le_weak, Qnot_le_lt. intros ?%Qle_bool_iff. congruence. }
      apply elem_of_cons in Hz as [->|[->|Hz]%elem_of_cons]; [done..|].
      apply Hle. by right.
Qed.

Lemma py_max_Q l :
  l ≠ [] →
  ∃ m, py_max (λ x y, negb (Qle_bool x y)) l = Ok m
       ∧ m ∈ l ∧ ∀ x, x ∈ l → (x <= m)%Q.
Proof.
  destruct l as [|x l]; [done|]. intros _.
  eexists; split; [done|]. apply foldl_max_Q.
Qed.

Lemma py_max_Ok_inv {A} gt (l : list A) m : py_max gt l = Ok m → l ≠ [].
Proof. by destruct l. Qed.

(** What a returned row is made of. *)
Lemma aggregate_Ok_inv target nest_data row :
  aggregate target nest_data = Ok row →
  ∃ top info0 infos top0 tops,
    py_max (λ x y, negb (Qle_bool x y)) (ss_sum <$> summed_scores_of nest_data)
      = Ok top
    ∧ nest_info_of nest_data = info0 :: infos
    ∧ filter (λ s, Qeq_bool (ss_sum s) top) (summed_scores_of nest_data)
      = top0 :: tops
    ∧ row = mkNest target (ni_key info0).1.1 (ni_key info0).1.2
              ((ni_match_xmin_mean info0 + ni_match_xmax_mean info0) / 2)%Q
              ((ni_match_ymin_mean info0 + ni_match_ymax_mean info0) / 2)%Q
              (ni_Date_min info0) (ni_Date_max info0) (ni_Date_count info0)
              (ss_key top0).2 (ss_sum top0) (ss_count top0)
              (join "," (pretty <$> (bird_id <$> nest_data))).
Proof.
  unfold aggregate. intros H.
  destruct (py_max _ _) as [top|] eqn:Htop; [|done]. simpl in H.
  destruct (nest_info_of nest_data) as [|info0 infos]; [done|]. simpl in H.
  destruct (filter _ _) as [|top0 tops] eqn:Hf; [done|]. simpl in H.
  exists top, info0, infos, top0, tops. by simplify_eq.
Qed.

Lemma aggregate_nest_id target nest_data row :
  aggregate target nest_data = Ok row → nest_id row = target.
Proof.
  intros (?&?&?&?&?&_&_&_&->)%aggregate_Ok_inv. done.
Qed.

(** Without rows the maximum of the summed scores raises. *)
Lemma aggregate_nil target :
  aggregate target [] = Raise ValueError.
Proof. done. Qed.

Lemma summed_scores_nonempty nest_data :
  nest_data ≠ [] → summed_scores_of nest_data ≠ [].
Proof.
  intros Hne Hnil. apply fmap_nil_inv in Hnil. by apply groupby_nonempty in Hnil.
Qed.

(** With at least one row the aggregation returns a row. *)
Lemma aggregate_Ok target nest_data :
  nest_data ≠ [] → ∃ row, aggregate target nest_data = Ok row.
Proof.
  intros Hne. unfold aggregate.
  destruct (py_max_Q (ss_sum <$> summed_scores_of nest_data))
    as (top & -> & (s & Hs & Hin)%list_elem_of_fmap & _).
  { intros Hnil%fmap_nil_inv. by apply summed_scores_nonempty in Hnil. }
  simpl.
  destruct (nest_info_of nest_data) as [|info0 infos] eqn:Hinfo.
  { apply fmap_nil_inv in Hinfo. by apply groupby_nonempty in Hinfo. }
  simpl.
  destruct (filter _ _) as [|top0 tops] eqn:Hf.
  { assert (s ∈ filter (λ s, Qeq_bool (ss_sum s) top) (summed_scores_of nest_data))
      as Hs'.
    { apply list_elem_of_filter. split; [|done].
      rewrite Hs. apply Is_true_true, Qeq_bool_refl. }
    rewrite Hf in Hs'. by apply elem_of_nil in Hs'. }
  simpl. by eexists.
Qed.

(** From here on all rows share Site, Year and target. *)
Variable nest_data : list Detection.
Variable k : string * string * Z.
Hypothesis same_key : ∀ r, r ∈ nest_data → (Site r, Year r, target_ind r) = k.

Lemma nest_info_single :
  nest_data ≠ [] →
  nest_info_of nest_data
  = [mkNestInfo k
       (str_min (Date <$> nest_data)) (str_max (Date <$> nest_data))
       (length nest_data)
       (mean (match_xmin <$> nest_data)) (mean (match_ymin <$> nest_data))
       (mean (match_xmax <$> nest_data)) (mean (match_ymax <$> nest_data))].
Proof.
  intros Hne. unfold nest_info_of. by rewrite (groupby_single _ _ _ k).
Qed.

Lemma label_group l :
  filter (λ r, (Site r, Year r, target_ind r, label r) = (k, l)) nest_data
  = filter (λ r, label r = l) nest_data.
Proof.
  apply filter_ext_elem. intros r Hr. rewrite <-(same_key r Hr). naive_solver.
Qed.

(** The rows of [summed_scores] are the labels of the target. *)
Lemma elem_of_summed_scores s :
  s ∈ summed_scores_of nest_data ↔
  ∃ l, (∃ r, r ∈ nest_data ∧ label r = l)
     ∧ s = mkSummedScore (k, l) (label_score nest_data l) (label_count nest_data l).
Proof.
  unfold summed_scores_of. rewrite list_elem_of_fmap. split.
  - intros ([k4 g] & -> & [(r & Hr & Hk) Hg]%elem_of_groupby). simpl in *.
    exists (label r). split; [by exists r|].
    subst k4 g. by rewrite (same_key r Hr), label_group.
  - intros (l & (r & Hr & <-) & ->).
    exists ((k, label r), filter (λ r', label r' = label r) nest_data).
    split; [done|]. apply elem_of_groupby. simpl. split.
    + exists r. by rewrite (same_key r Hr).
    + by rewrite label_group.
Qed.

(** The row of a target in terms of its score-filtered detections. *)
Lemma aggregate_spec target row :
  aggregate target nest_data = Ok row →
  nest_id row = target
  ∧ (nest_Site row, nest_Year row) = k.1
  ∧ xmean row
    = ((mean (match_xmin <$> nest_data) + mean (match_xmax <$> nest_data)) / 2)%Q
  ∧ ymean row
    = ((mean (match_ymin <$> nest_data) + mean (match_ymax <$> nest_data)) / 2)%Q
  ∧ num_obs row = length nest_data
  ∧ (∃ r, r ∈ nest_data ∧ label r = species row)
  ∧ sum_top1 row = label_score nest_data (species row)
  ∧ num_top1 row = label_count nest_data (species row)
  ∧ ∀ r, r ∈ nest_data →
      (label_score nest_data (label r) <= sum_top1 row)%Q.
Proof.
  intros (top & info0 & infos & top0 & tops & Htop & Hinfo & Hf & ->)%aggregate_Ok_inv.
  assert (nest_data ≠ []) as Hne.
  { apply py_max_Ok_inv in Htop. intros ->. by apply Htop. }
  rewrite nest_info_single in Hinfo by done. injection Hinfo as <- <-.
  assert (top0 ∈ filter (λ s, Qeq_bool (ss_sum s) top) (summed_scores_of nest_data))
    as [Heq (l & Hl & ->)%elem_of_summed_scores]%list_elem_of_filter
    by (rewrite Hf; left).
  apply Is_true_true, Qeq_bool_iff in Heq.
  destruct (py_max_Q (ss_sum <$> summed_scores_of nest_data))
    as (top' & Htop' & _ & Hmax); [by eapply py_max_Ok_inv|].
  rewrite Htop in Htop'. injection Htop' as <-.
  simpl in *. split_and!; try done; [by destruct k as [[??]?]|].
  intros r Hr. rewrite Heq.
  apply Hmax, list_elem_of_fmap.
  exists (mkSummedScore (k, label r) (label_score nest_data (label r))
            (label_count nest_data (label r))).
  split; [done|]. apply elem_of_summed_scores. exists (label r). naive_solver.
Qed.

End aggregate.

(** ** The loop over the targets *)

Section process_nests.
Variable nests_data : list Detection.
Variable date_data : list DateRow.
Variable min_score : Q.
Variable min_detections min_consec_detects : Z.

Local Abbreviation body :=
  (process_target nests_data date_data min_score min_detections min_consec_detects).
Local Abbreviation rows_of t := (select nests_data t min_score).

Lemma process_target_eval nests target n :
  count_max_consec_detects (rows_of target) date_data = Ok n →
  body nests target
  = if bool_decide (min_detections ≤ Z.of_nat (length (rows_of target)))
       || bool_decide (min_consec_detects ≤ n)
    then row ← aggregate target (rows_of target); Ok (nests ++ [row])
    else Ok nests.
Proof. unfold process_target. by intros ->. Qed.

(** The two ways an iteration ends without an exception. *)
Lemma process_target_Ok nests target nests' :
  body nests target = Ok nests' ↔
  ∃ n, count_max_consec_detects (rows_of target) date_data = Ok n
    ∧ ((retained min_detections min_consec_detects (rows_of target) n
        ∧ ∃ row, aggregate target (rows_of target) = Ok row
                 ∧ nests' = nests ++ [row])
       ∨ (¬ retained min_detections min_consec_detects (rows_of target) n
          ∧ nests' = nests)).
Proof.
  unfold process_target, retained.
  destruct (count_max_consec_detects _ _) as [n|e]; simpl; [|naive_solver].
  rewrite <-bool_decide_or. case_bool_decide as Hret.
  - destruct (aggregate _ _) as [row|e]; simpl; naive_solver.
  - naive_solver.
Qed.

(** The rows that the loop adds: each is the aggregation of a retained
    target, and each retained target has its row. *)
Lemma for_each_targets targets : ∀ nests0 nests,
  for_each body targets nests0 = Ok nests →
  ∃ rows, nests = nests0 ++ rows
    ∧ (∀ row, row ∈ rows → ∃ n,
         nest_id row ∈ targets
         ∧ count_max_consec_detects (rows_of (nest_id row)) date_data = Ok n
         ∧ retained min_detections min_consec_detects (rows_of (nest_id row)) n
         ∧ aggregate (nest_id row) (rows_of (nest_id row)) = Ok row)
    ∧ (∀ t, t ∈ targets → ∃ n,
         count_max_consec_detects (rows_of t) date_data = Ok n
         ∧ (retained min_detections min_consec_detects (rows_of t) n →
            ∃ row, row ∈ rows ∧ nest_id row = t)).
Proof.
  induction targets as [|t targets IH]; intros nests0 nests Hloop.
  - injection Hloop as <-. exists []. rewrite app_nil_r.
    split_and!; [done|by intros ? ?%elem_of_nil..].
  - simpl in Hloop.
    destruct (body nests0 t) as [nests1|] eqn:Hbody; [|done]. simpl in Hloop.
    apply IH in Hloop as (rows & -> & Hrows & Htargets).
    apply process_target_Ok in Hbody
      as (n & Hn & [(Hret & row & Hrow & ->)|(Hret & ->)]).
    + exists (row :: rows). rewrite <-app_assoc. split_and!; [done|..].
      * intros row' [->|Hin]%elem_of_cons.
        -- rewrite (aggregate_nest_id _ _ _ Hrow). exists n.
           split_and!; [left|done..].
        -- destruct (Hrows row' Hin) as (n' & ? & ? & ? & ?).
           exists n'. split_and!; [by right|done..].
      * intros t' [->|Hin]%elem_of_cons.
        -- exists n. split; [done|]. intros _. exists row.
           split; [left|by eapply aggregate_nest_id].
        -- destruct (Htargets t' Hin) as (n' & ? & Hex).
           exists n'. split; [done|]. intros (row' & ? & ?)%Hex.
           exists row'. split; [by right|done].
    + exists rows. split_and!; [done|..].
      * intros row' Hin. destruct (Hrows row' Hin) as (n' & ? & ? & ? & ?).
        exists n'. split_and!; [by right|done..].
      * intros t' [->|Hin]%elem_of_cons.
        -- exists n. split; [done|]. by intros ?.
        -- by apply Htargets.
Qed.


(** With a single calendar row, a target without score-filtered rows
    that passes the retention rule ends the loop in the [ValueError] of
    [max]. *)
Lemma for_each_empty_target targets nests0 t :
  length date_data = 1%nat → t ∈ targets → rows_of t = [] →
  (min_detections ≤ 0 ∨ min_consec_detects ≤ 0) →
  for_each body targets nests0
  = Raise ValueError.
Proof.
  intros Hone Ht Hnil Hmin. revert nests0.
  induction targets as [|t' targets IH]; intros nests0;
    [by apply elem_of_nil in Ht|].
  cbn [for_each].
  destruct (count_max_one_row_Ok (rows_of t') date_data Hone) as [n Hn].
  rewrite (process_target_eval _ _ n Hn).
  destruct (decide (rows_of t' = [])) as [Hnil'|Hne].
  - rewrite Hnil' in Hn |- *.
    assert (n = 0) as ->.
    { destruct date_data as [|row [|??]]; try done.
      rewrite count_max_consec_detects_none in Hn. by injection Hn. }
    rewrite <-bool_decide_or, bool_decide_eq_true_2 by (simpl; lia). done.
  - destruct (aggregate_Ok t' _ Hne) as [row ->].
    apply elem_of_cons in Ht as [->|Ht]; [done|].
    destruct (_ || _); simpl; by apply IH.
Qed.

(** With a single calendar row the loop ends without an exception when
    every target either has a score-filtered row or meets positive
    thresholds. *)
Lemma for_each_returns targets nests0 :
  length date_data = 1%nat →
  (∀ t, t ∈ targets →
     rows_of t ≠ [] ∨ (0 < min_detections ∧ 0 < min_consec_detects)) →
  ∃ nests, for_each body targets nests0 = Ok nests.
Proof.
  intros Hone Hall. revert nests0.
  induction targets as [|t targets IH]; intros nests0; [by eexists|].
  cbn [for_each].
  destruct (count_max_one_row_Ok (rows_of t) date_data Hone) as [n Hn].
  rewrite (process_target_eval _ _ n Hn).
  assert (∀ nests, ∃ nests', for_each body targets nests = Ok nests') as Hrest
    by (intros; apply IH; intros; apply Hall; by right).
  destruct (decide (rows_of t = [])) as [Hnil|Hne].
  - destruct (Hall t) as [?|[??]]; [left|done|].
    rewrite Hnil in Hn |- *.
    assert (n = 0) as ->.
    { destruct date_data as [|row [|??]]; try done.
      rewrite count_max_consec_detects_none in Hn. by injection Hn. }
    rewrite !bool_decide_eq_false_2 by (simpl; lia). simpl. apply Hrest.
  - destruct (aggregate_Ok t _ Hne) as [row ->].
    destruct (_ || _); simpl; apply Hrest.
Qed.

End process_nests.

Section process_nests_file.
Variable fs : FileSystem.
Variable nests_data : list Detection.
Variable crs year site savedir : string.
Variable min_score : Q.
Variable min_detections min_consec_detects : Z.

Local Abbreviation run :=
  (process_nests fs nests_data crs year site savedir
     min_score min_detections min_consec_detects).

Lemma length_survey_dates :
  length (survey_dates nests_data)
  = length (unique ((λ r, (Site r, Year r)) <$> nests_data)).
Proof. unfold survey_dates. by rewrite length_fmap, length_groupby. Qed.

Lemma survey_dates_one_survey :
  length (survey_dates nests_data) = 1%nat → one_survey nests_data.
Proof.
  unfold survey_dates. rewrite length_fmap. intros Hl r r' Hr Hr'.
  pose proof (groupby_length_1 _ _ _ Hl r r' Hr Hr'). by simplify_eq.
Qed.

Lemma one_survey_survey_dates :
  one_survey nests_data → nests_data ≠ [] →
  length (survey_dates nests_data) = 1%nat.
Proof.
  intros Hone Hne. destruct nests_data as [|r0 l] eqn:Hnd; [done|].
  unfold survey_dates.
  rewrite (groupby_single _ _ _ (Site r0, Year r0)); [done..|].
  intros r Hr. destruct (Hone r r0 Hr) as [-> ->]; [left|done].
Qed.

(** The file written is made of the rows of the loop. *)
Lemma process_nests_Ok_inv out :
  run = Ok out →
  for_each
    (process_target nests_data (survey_dates nests_data)
       min_score min_detections min_consec_detects)
    (unique (target_ind <$> nests_data)) []
  = Ok (sf_records out)
  ∧ sf_fields out = nest_columns
  ∧ sf_crs out = crs.
Proof.
  unfold process_nests. destruct (for_each _ _ _) as [nests|]; [|done].
  simpl. destruct (if negb _ then _ else _) as [[]|]; [|done].
  simpl. destruct nests; intros [= <-]; done.
Qed.

(** The directory step: it is passed exactly when [savedir] is ready, and
    raises the [OSError] of [os.makedirs] otherwise. *)
Lemma savedir_step :
  (savedir_ready fs savedir
   ∧ (if negb (path_exists fs savedir) then makedirs fs savedir else Ok ()) = Ok ())
  ∨ (¬ savedir_ready fs savedir
     ∧ path_exists fs savedir = false
     ∧ ∃ name, makedirs fs savedir = Raise (OSError name)
       ∧ (if negb (path_exists fs savedir) then makedirs fs savedir else Ok ())
         = Raise (OSError name)).
Proof.
  unfold savedir_ready.
  destruct (path_exists fs savedir) eqn:Hex; simpl; [left; by split; [left|]|].
  destruct (makedirs fs savedir) as [[]|e] eqn:Hmk; [left; split; [by right|done]|].
  right. split_and!; [by intros [?|?]|done|].
  revert Hmk. unfold makedirs. case_bool_decide; [intros [= <-]; by eexists|].
  destruct (fs_makedirs fs savedir) as [name|]; [|done]. intros [= <-]. by eexists.
Qed.

Lemma savedir_ready_step :
  savedir_ready fs savedir →
  (if negb (path_exists fs savedir) then makedirs fs savedir else Ok ()) = Ok ().
Proof.
  intros [Hex|Hmk]; [by rewrite Hex|]. rewrite Hmk. by destruct (negb _).
Qed.

Lemma process_nests_savedir_ready out : run = Ok out → savedir_ready fs savedir.
Proof.
  unfold process_nests. destruct (for_each _ _ _) as [nests|]; [|done]. simpl.
  destruct savedir_step as [[Hready _]|(_ & _ & name & _ & ->)]; done.
Qed.

Lemma process_nests_one_survey out : run = Ok out → one_survey nests_data.
Proof.
  intros [Hloop _]%process_nests_Ok_inv r r' Hr Hr'.
  apply for_each_targets in Hloop as (rows & _ & _ & Htargets).
  destruct (Htargets (target_ind r)) as (n & Hn & _).
  { apply elem_of_unique, list_elem_of_fmap. by exists r. }
  apply count_max_Ok_one_row in Hn.
  by apply survey_dates_one_survey.
Qed.

(** The rows of one target share Site, Year and target. *)
Lemma select_same_key t r0 :
  one_survey nests_data → r0 ∈ nests_data →
  ∀ r, r ∈ select nests_data t min_score →
    (Site r, Year r, target_ind r) = (Site r0, Year r0, t).
Proof.
  intros Hone Hr0 r [[-> _] Hr]%list_elem_of_filter.
  by destruct (Hone r r0 Hr Hr0) as [-> ->].
Qed.

(** Each row of the file is the aggregation of a retained target. *)
Lemma process_nests_row out row :
  run = Ok out → row ∈ sf_records out →
  ∃ n r0,
    nest_id row ∈ target_ind <$> nests_data
    ∧ count_max_consec_detects (select nests_data (nest_id row) min_score)
        (survey_dates nests_data) = Ok n
    ∧ retained min_detections min_consec_detects
        (select nests_data (nest_id row) min_score) n
    ∧ aggregate (nest_id row) (select nests_data (nest_id row) min_score) = Ok row
    ∧ ∀ r, r ∈ select nests_data (nest_id row) min_score →
        (Site r, Year r, target_ind r) = (Site r0, Year r0, nest_id row).
Proof.
  intros Hrun Hrow. pose proof (process_nests_one_survey _ Hrun) as Hone.
  apply process_nests_Ok_inv in Hrun as [Hloop _].
  apply for_each_targets in Hloop as (rows & Hrows & Hall & _).
  simpl in Hrows. rewrite <-Hrows in Hall.
  destruct (Hall row Hrow) as (n & Hin & Hn & Hret & Hagg).
  rewrite elem_of_unique in Hin.
  pose proof Hin as (r0 & _ & Hr0)%list_elem_of_fmap.
  exists n, r0. split_and!; [done..|]. by apply select_same_key.
Qed.

(** A target has a row in the file exactly when it passes the retention
    rule. *)
Lemma process_nests_row_iff out t :
  run = Ok out → t ∈ target_ind <$> nests_data →
  (∃ row, row ∈ sf_records out ∧ nest_id row = t)
  ↔ ∃ n, count_max_consec_detects (select nests_data t min_score)
           (survey_dates nests_data) = Ok n
       ∧ retained min_detections min_consec_detects
           (select nests_data t min_score) n.
Proof.
  intros Hrun Ht. split.
  - intros (row & Hrow & <-).
    destruct (process_nests_row _ _ Hrun Hrow) as (n & _ & _ & Hn & Hret & _).
    by exists n.
  - intros (n & Hn & Hret).
    apply process_nests_Ok_inv in Hrun as [Hloop _].
    apply for_each_targets in Hloop as (rows & Hrows & _ & Htargets).
    simpl in Hrows. rewrite <-Hrows in Htargets.
    destruct (Htargets t) as (n' & Hn' & Hex); [by apply elem_of_unique|].
    rewrite Hn in Hn'. injection Hn' as <-. by apply Hex.
Qed.

(** When the loop of [process_nests] ends without an exception. *)
Lemma process_nests_loop_returns :
  one_survey nests_data →
  (∀ t, t ∈ target_ind <$> nests_data →
     select nests_data t min_score ≠ []
     ∨ (0 < min_detections ∧ 0 < min_consec_detects)) →
  ∃ nests,
    for_each
      (process_target nests_data (survey_dates nests_data)
         min_score min_detections min_consec_detects)
      (unique (target_ind <$> nests_data)) []
    = Ok nests.
Proof.
  intros Hone Hall.
  destruct (decide (nests_data = [])) as [Hnil|Hne].
  { rewrite Hnil. by eexists. }
  apply for_each_returns.
  - by apply one_survey_survey_dates.
  - intros t Ht. rewrite elem_of_unique in Ht. by apply Hall.
Qed.

(** When [process_nests] writes its file. *)
Lemma process_nests_returns :
  one_survey nests_data →
  (∀ t, t ∈ target_ind <$> nests_data →
     select nests_data t min_score ≠ []
     ∨ (0 < min_detections ∧ 0 < min_consec_detects)) →
  savedir_ready fs savedir →
  ∃ out, run = Ok out.
Proof.
  intros Hone Hall Hready. unfold process_nests.
  destruct (process_nests_loop_returns Hone Hall) as [nests ->]. simpl.
  rewrite (savedir_ready_step Hready). simpl. destruct nests; by eexists.
Qed.

(** When the loop ends without an exception and [savedir] is neither
    there nor made, [process_nests] raises the [OSError] of
    [os.makedirs]. *)
Lemma process_nests_OSError :
  one_survey nests_data →
  (∀ t, t ∈ target_ind <$> nests_data →
     select nests_data t min_score ≠ []
     ∨ (0 < min_detections ∧ 0 < min_consec_detects)) →
  ¬ savedir_ready fs savedir →
  path_exists fs savedir = false
  ∧ ∃ name, makedirs fs savedir = Raise (OSError name) ∧ run = Raise (OSError name).
Proof.
  intros Hone Hall Hready. unfold process_nests.
  destruct (process_nests_loop_returns Hone Hall) as [nests ->]. simpl.
  destruct savedir_step as [[? _]|(_ & Hex & name & Hmk & ->)]; [done|].
  split; [done|]. by exists name.
Qed.

(** After a loop without exception the run ends in the file or in the
    [OSError] of [os.makedirs], as [savedir] is ready or not. *)
Lemma process_nests_file_or_OSError :
  one_survey nests_data →
  (∀ t, t ∈ target_ind <$> nests_data →
     select nests_data t min_score ≠ []
     ∨ (0 < min_detections ∧ 0 < min_consec_detects)) →
  (savedir_ready fs savedir ∧ ∃ out, run = Ok out)
  ∨ (¬ savedir_ready fs savedir
     ∧ path_exists fs savedir = false
     ∧ ∃ name, makedirs fs savedir = Raise (OSError name)
               ∧ run = Raise (OSError name)).
Proof.
  intros Hone Hall.
  destruct savedir_step as [[Hready _]|(Hnot & _)].
  - left. split; [done|]. by apply process_nests_returns.
  - right. split; [done|]. by apply process_nests_OSError.
Qed.

End process_nests_file.

(** ** Properties of [process_nests] *)

(** On a table of two surveys the calendar has two rows, and the first
    target already fails the assertion of [count_max_consec_detects]. *)
Example process_nests_two_sites :
  length (survey_dates Examples.two_sites) = 2%nat
  ∧ process_nests Examples.disk Examples.two_sites "EPSG:32617" "2020" "JetportSouth" "nests"
      (3 # 10) 3 1 = Raise not_one_row.
Proof. split; by vm_compute. Qed.



(** Under [min_detections = 3] and [min_consec_detects = 2] neither target
    of the example is retained. *)
Example process_nests_retention_strict :
  ∃ out,
    process_nests Examples.disk Examples.survey "EPSG:32617" "2020" "JetportSouth" "nests"
      (3 # 10) 3 2 = Ok out
    ∧ sf_records out = [].
Proof. eexists. split; by vm_compute. Qed.

(** C5. In every row of the file, [xmean] is half the sum of the mean
    [match_xmin] and the mean [match_xmax], and [ymean] that of the mean
    [match_ymin] and the mean [match_ymax], the means being taken over all
    detections of the target of score [>= min_score], whatever their
    label. *)
Theorem process_nests_centroid fs nests_data crs year site savedir
    min_score min_detections min_consec_detects out row :
  process_nests fs nests_data crs year site savedir
    min_score min_detections min_consec_detects = Ok out →
  row ∈ sf_records out →
  let nest_data := select nests_data (nest_id row) min_score in
  xmean row
    = ((mean (match_xmin <$> nest_data) + mean (match_xmax <$> nest_data)) / 2)%Q
  ∧ ymean row
    = ((mean (match_ymin <$> nest_data) + mean (match_ymax <$> nest_data)) / 2)%Q.
Proof.
  intros Hrun Hrow nest_data.
  destruct (process_nests_row _ _ _ _ _ _ _ _ _ _ _ Hrun Hrow)
    as (n & r0 & _ & _ & _ & Hagg & Hkey).
  by destruct (aggregate_spec _ _ Hkey _ _ Hagg) as (_ & _ & Hx & Hy & _).
Qed.

(** C5 on the boxes (0, 0, 10, 10) and (4, 4, 14, 14) of two labels, next
    to a box that the score threshold removes: both means are 7. *)
Lemma process_nests_centroid_witness :
  ∃ out row,
    process_nests Examples.disk Examples.boxes "EPSG:32617" "2020" "JetportSouth" "nests"
      (3 # 10) 3 1 = Ok out
    ∧ sf_records out = [row]
    ∧ (xmean row == 7)%Q ∧ (ymean row == 7)%Q.
Proof.
  eassert (Hout : process_nests Examples.disk Examples.boxes "EPSG:32617" "2020" "JetportSouth"
                    "nests" (3 # 10) 3 1 = Ok _) by (vm_compute; reflexivity).
  eexists _, _. split; [exact Hout|]. split; [reflexivity|].
  pose proof (λ row, process_nests_centroid _ _ _ _ _ _ _ _ _ _ row Hout) as Hrow.
  edestruct Hrow as [Hx Hy]; [left|].
  rewrite Hx, Hy. split; by vm_compute.
Defined.

(** C6. In every row of the file, [species] is a label of the target's
    detections of score [>= min_score], [sum_top1] and [num_top1] are the
    summed score and the number of the detections of that label, and no
    label of the target has a greater summed score. *)
Theorem process_nests_species fs nests_data crs year site savedir
    min_score min_detections min_consec_detects out row :
  process_nests fs nests_data crs year site savedir
    min_score min_detections min_consec_detects = Ok out →
  row ∈ sf_records out →
  let nest_data := select nests_data (nest_id row) min_score in
  (∃ r, r ∈ nest_data ∧ label r = species row)
  ∧ sum_top1 row = label_score nest_data (species row)
  ∧ num_top1 row = label_count nest_data (species row)
  ∧ ∀ r, r ∈ nest_data → (label_score nest_data (label r) <= sum_top1 row)%Q.
Proof.
  intros Hrun Hrow nest_data.
  destruct (process_nests_row _ _ _ _ _ _ _ _ _ _ _ Hrun Hrow)
    as (n & r0 & _ & _ & _ & Hagg & Hkey).
  by destruct (aggregate_spec _ _ Hkey _ _ Hagg) as (_ & _ & _ & _ & _ & ? & ? & ? & ?).
Qed.

(** C6 on a target whose single best detection is a Great Egret: the two
    White Ibis detections above the threshold sum to more. *)
Lemma process_nests_species_witness :
  ∃ out row,
    process_nests Examples.disk Examples.labels "EPSG:32617" "2020" "JetportSouth" "nests"
      (3 # 10) 3 1 = Ok out
    ∧ sf_records out = [row]
    ∧ species row = "White Ibis"
    ∧ (sum_top1 row == 1)%Q ∧ num_top1 row = 2%nat
    ∧ (label_score (select Examples.labels 3 (3 # 10)) "Great Egret" <= sum_top1 row)%Q.
Proof.
  eassert (Hout : process_nests Examples.disk Examples.labels "EPSG:32617" "2020" "JetportSouth"
                    "nests" (3 # 10) 3 1 = Ok _) by (vm_compute; reflexivity).
  eexists _, _. split; [exact Hout|]. split; [reflexivity|].
  pose proof (λ row, process_nests_species _ _ _ _ _ _ _ _ _ _ row Hout) as Hrow.
  edestruct Hrow as (_ & Hsum & Hnum & Hmax); [left|].
  split; [done|]. rewrite Hsum, Hnum. split_and!; [by vm_compute..|].
  rewrite <-Hsum.
  apply (Hmax (Examples.detection 3 "d1" (9 # 10) "Great Egret" 0 0 10 10)).
  vm_compute. left.
Defined.




(** C10. On a table of one survey, when [min_consec_detects <= 0] and a
    target has no detection of score [>= min_score], this target has the
    consecutive-run count 0, passes the retention rule, and
    [process_nests] raises the [ValueError] of [max] over no summed
    score: no file is written. *)
Theorem process_nests_empty_target fs nests_data crs year site savedir
    min_score min_detections min_consec_detects t :
  one_survey nests_data →
  min_consec_detects ≤ 0 →
  t ∈ target_ind <$> nests_data →
  select nests_data t min_score = [] →
  count_max_consec_detects (select nests_data t min_score)
    (survey_dates nests_data) = Ok 0
  ∧ retained min_detections min_consec_detects (select nests_data t min_score) 0
  ∧ aggregate t (select nests_data t min_score)
    = Raise ValueError
  ∧ process_nests fs nests_data crs year site savedir
      min_score min_detections min_consec_detects
    = Raise ValueError.
Proof.
  intros Hone Hmin Ht Hnil.
  assert (length (survey_dates nests_data) = 1%nat) as Hrows.
  { apply one_survey_survey_dates; [done|]. intros ->. by apply elem_of_nil in Ht. }
  split_and!.
  - rewrite Hnil. destruct (survey_dates nests_data) as [|row [|??]]; try done.
  - by right.
  - by rewrite Hnil.
  - unfold process_nests.
    rewrite (for_each_empty_target _ _ _ _ _ _ _ t); [done..| | |by right].
    + by apply elem_of_unique.
    + done.
Qed.

(** C10 on the example survey with a score threshold that no detection
    of target 1 reaches. *)
Lemma process_nests_empty_target_witness :
  one_survey Examples.survey
  ∧ select Examples.survey 1 (95 # 100) = []
  ∧ process_nests Examples.disk Examples.survey "EPSG:32617" "2020" "JetportSouth" "nests"
      (95 # 100) 3 0
    = Raise ValueError.
Proof.
  assert (Hone : one_survey Examples.survey).
  { apply survey_dates_one_survey. by vm_compute. }
  split_and!; [done|by vm_compute|].
  apply (process_nests_empty_target _ _ _ _ _ _ _ _ _ 1 Hone).
  - lia.
  - by_eval.
  - by vm_compute.
Defined.

(** ** The order of the dates *)

Section date_order.

Lemma leb_lts a b :
  String.leb a b = true ↔ a = b ∨ OrderedTypeEx.String_as_OT.lt a b.
Proof.
  unfold String.leb.
  destruct (String.compare a b) eqn:Hc.
  - apply OrderedTypeEx.String_as_OT.cmp_eq in Hc. tauto.
  - apply OrderedTypeEx.String_as_OT.cmp_lt in Hc. tauto.
  - split; [done|]. intros [->|Hlt].
    + assert (String.compare b b = Eq) as Hb
        by by apply OrderedTypeEx.String_as_OT.cmp_eq.
      congruence.
    + apply OrderedTypeEx.String_as_OT.cmp_lt in Hlt.
      unfold OrderedTypeEx.String_as_OT.cmp in Hlt. congruence.
Qed.

Lemma leb_refl a : String.leb a a = true.
Proof. apply leb_lts. by left. Qed.

Lemma leb_trans a b c :
  String.leb a b = true → String.leb b c = true → String.leb a c = true.
Proof.
  rewrite !leb_lts. intros [->|Hab] [->|Hbc]; auto.
  right. by eapply OrderedTypeEx.String_as_OT.lt_trans.
Qed.

Lemma ltb_leb a b : String.ltb a b = true → String.leb a b = true.
Proof. unfold String.ltb, String.leb. by destruct (String.compare a b). Qed.

Lemma ltb_false_leb a b : String.ltb a b = false → String.leb b a = true.
Proof.
  unfold String.ltb, String.leb. rewrite (String.compare_antisym b a).
  by destruct (String.compare a b).
Qed.

Global Instance leb_Total : Total (λ a b : string, Is_true (String.leb a b)).
Proof.
  intros a b. destruct (String.leb_total a b) as [H|H]; rewrite H; auto.
Qed.

Global Instance leb_Transitive :
  Transitive (λ a b : string, Is_true (String.leb a b)).
Proof.
  intros a b c Hab%Is_true_true Hbc%Is_true_true.
  apply Is_true_true. by eapply leb_trans.
Qed.

Global Instance leb_AntiSymm :
  AntiSymm (=) (λ a b : string, Is_true (String.leb a b)).
Proof.
  intros a b Hab%Is_true_true Hba%Is_true_true. by apply String.leb_antisym.
Qed.

Lemma sort_values_StronglySorted l :
  StronglySorted (λ a b : string, Is_true (String.leb a b)) (sort_values l).
Proof. unfold sort_values. apply (StronglySorted_merge_sort _). Qed.

(** The sorted series is the same for every order of the values. *)
Lemma sort_values_proper l l' : l ≡ₚ l' → sort_values l = sort_values l'.
Proof.
  intros Hp.
  apply (StronglySorted_unique (λ a b : string, Is_true (String.leb a b)));
    [apply sort_values_StronglySorted..|].
  by rewrite !sort_values_Permutation.
Qed.

End date_order.

(** ** Bounds and invariance of the count *)

Section count_bounds.

(** Each iteration raises the counter and the recorded counts by at most
    one. *)
Lemma scan_bound rest : ∀ p all c m,
  0 ≤ c ≤ m → Forall (λ x, 0 ≤ x ≤ m) all →
  Forall (λ x, 0 ≤ x ≤ m + Z.of_nat (length rest)) (scan p rest (all, c)).1
  ∧ 0 ≤ (scan p rest (all, c)).2 ≤ m + Z.of_nat (length rest).
Proof.
  induction rest as [|cur rest IH]; intros p all c m Hc Hall.
  - simpl. rewrite Z.add_0_r. done.
  - cbn [scan length].
    assert (∀ x, 0 ≤ x ≤ m → 0 ≤ x ≤ m + 1) as Hw by lia.
    assert (Forall (λ x, 0 ≤ x ≤ m + 1) all) as Hall'
      by (eapply Forall_impl; [done|]; simpl; lia).
    destruct (next_state p cur (bool_decide (rest = [])) (all, c))
      as [all' c'] eqn:Hn.
    assert (0 ≤ c' ≤ m + 1 ∧ Forall (λ x, 0 ≤ x ≤ m + 1) all') as [Hc' Hall''].
    { unfold next_state in Hn. simpl in Hn.
      destruct (eq1 cur), (eq1 p), (bool_decide (rest = []));
        simplify_eq; (split; [lia|]); rewrite ?Forall_app, ?Forall_singleton;
        try done; split; try done; lia. }
    destruct (IH cur all' c' (m + 1) Hc' Hall'') as [H1 H2].
    replace (m + Z.of_nat (S (length rest)))
      with (m + 1 + Z.of_nat (length rest)) by lia.
    done.
Qed.

Lemma max_consec_of_diff_bound d n :
  max_consec_of_diff d = Ok n → 0 ≤ n ≤ Z.of_nat (length d - 1).
Proof.
  intros Hn. destruct (max_consec_of_diff_scan d) as (n' & Hn' & Hall).
  rewrite Hn in Hn'. injection Hn' as <-.
  destruct d as [|p rest]; simpl in *.
  - destruct Hall as [[_ ->]|[[]%elem_of_nil _]]. done.
  - rewrite Nat.sub_0_r.
    destruct Hall as [[_ ->]|[Hin _]]; [lia|].
    destruct (scan_bound rest p [] 0 0) as [Hall _]; [lia|done|].
    rewrite Forall_forall in Hall. by apply Hall in Hin.
Qed.

Lemma length_date_ranks nest_data calendar :
  length (date_ranks nest_data calendar) = length nest_data.
Proof.
  unfold date_ranks, map_dict.
  by rewrite length_fmap, (Permutation_length (sort_values_Permutation _)), length_fmap.
Qed.

Lemma length_diff l : length (diff l) = length l.
Proof.
  destruct l as [|x l]; [done|]. simpl. f_equal.
  revert x. induction l as [|y l IH]; intros x; simpl; [done|]. by rewrite IH.
Qed.

(** The count of a target is less than the number of its rows. *)
Lemma count_max_bound nest_data date_data n :
  count_max_consec_detects nest_data date_data = Ok n →
  0 ≤ n ≤ Z.of_nat (length nest_data - 1).
Proof.
  intros Hn. pose proof (count_max_Ok_one_row _ _ _ Hn) as Hl.
  destruct date_data as [|row [|??]]; try done.
  rewrite count_max_one_row in Hn. apply max_consec_of_diff_bound in Hn.
  by rewrite length_diff, length_date_ranks in Hn.
Qed.

End count_bounds.

(** X1. On any rows and any calendar row, [count_max_consec_detects]
    returns a count that is at least 0 and less than the number of rows
    of the target (0 when the target has no row). *)
Theorem count_max_consec_detects_bounds nest_data row :
  ∃ n, count_max_consec_detects nest_data [row] = Ok n
       ∧ 0 ≤ n ≤ Z.of_nat (length nest_data - 1).
Proof.
  destruct (count_max_one_row_Ok nest_data [row]) as [n Hn]; [done|].
  exists n. split; [done|]. by eapply count_max_bound.
Qed.

(** X2. The count depends neither on the order of the rows of the target
    nor on the order of the dates in the calendar: both are sorted
    first. *)
Theorem count_max_consec_detects_order nest_data nest_data' row row' :
  Date <$> nest_data ≡ₚ Date <$> nest_data' →
  dr_Date row ≡ₚ dr_Date row' →
  count_max_consec_detects nest_data [row]
  = count_max_consec_detects nest_data' [row'].
Proof.
  intros Hn Hc. rewrite !count_max_one_row. unfold date_ranks.
  by rewrite (sort_values_proper _ _ Hn), (sort_values_proper _ _ Hc).
Qed.

(** X2 on the dates d2 and d3 in either order, against two orders of the
    calendar. *)
Lemma count_max_consec_detects_order_witness :
  count_max_consec_detects Examples.at_d2_d3 [Examples.calendar5]
  = count_max_consec_detects [Examples.on_ "d2"; Examples.on_ "d3"]
      [mkDateRow "JetportSouth" "2020" ["d1"; "d2"; "d3"; "d4"; "d5"]].
Proof.
  apply count_max_consec_detects_order.
  - apply Permutation_swap.
  - simpl. apply (bool_decide_unpack _). by vm_compute.
Defined.

(** ** Ranks ascend with the dates *)

Section ascending_ranks.

Lemma StronglySorted_lookup {A} (R : relation A) l i j x y :
  StronglySorted R l → (i < j)%nat →
  l !! i = Some x → l !! j = Some y → R x y.
Proof.
  intros Hs. revert i j. induction Hs as [|z l Hs IH Hall]; intros i j Hij Hi Hj.
  - done.
  - destruct j as [|j]; [lia|]. simpl in Hj. destruct i as [|i].
    + simpl in Hi. injection Hi as <-.
      rewrite Forall_forall in Hall. apply Hall. by eapply list_elem_of_lookup_2.
    + simpl in Hi. apply (IH i j); [lia|done..].
Qed.

Lemma rank_of_Some calendar d a :
  rank_of calendar d = Some a →
  ∃ i, a = Z.of_nat i ∧ sort_values calendar !! i = Some d.
Proof.
  unfold rank_of. intros ([i x] & Hfind & ->)%fmap_Some.
  apply list_find_Some in Hfind as (Hi & <- & _). by exists i.
Qed.

(** A later date has no smaller rank. *)
Lemma rank_of_mono calendar d d' a b :
  rank_of calendar d = Some a → rank_of calendar d' = Some b →
  String.leb d d' = true → a ≤ b.
Proof.
  intros Ha Hb Hle.
  destruct (rank_of_Some _ _ _ Ha) as (i & -> & Hi).
  destruct (rank_of_Some _ _ _ Hb) as (j & -> & Hj).
  destruct (decide (j < i)%nat) as [Hlt|]; [|lia].
  pose proof (StronglySorted_lookup _ _ _ _ _ _
                (sort_values_StronglySorted calendar) Hlt Hj Hi) as Hle'.
  apply Is_true_true in Hle'.
  assert (d = d') as <- by by apply String.leb_antisym.
  rewrite Ha in Hb. injection Hb. lia.
Qed.

Lemma omap_StronglySorted {A} (R : relation A) (f : A → option Z) l :
  StronglySorted R l →
  (∀ x y a b, R x y → f x = Some a → f y = Some b → a ≤ b) →
  StronglySorted Z.le (omap f l).
Proof.
  intros Hs Hf. induction Hs as [|x l Hs IH Hall]; simpl; [constructor|].
  destruct (f x) as [a|] eqn:Hx; [|done].
  constructor; [done|]. apply Forall_forall.
  intros b (y & Hy & Hb)%list_elem_of_omap.
  rewrite Forall_forall in Hall. by apply (Hf x y); [apply Hall|..].
Qed.

(** The ranks of a target ascend. *)
Lemma target_ranks_StronglySorted nest_data calendar :
  StronglySorted Z.le (target_ranks nest_data calendar).
Proof.
  unfold target_ranks.
  apply (omap_StronglySorted (λ a b : string, Is_true (String.leb a b)));
    [apply sort_values_StronglySorted|].
  intros x y a b Hxy%Is_true_true Ha Hb. by eapply rank_of_mono.
Qed.

(** In an ascending series, two values that differ by one have
    neighbours that do. *)
Lemma StronglySorted_adjacent l a :
  StronglySorted Z.le l → a ∈ l → a + 1 ∈ l →
  ∃ pre post, l = pre ++ a :: (a + 1) :: post.
Proof.
  intros Hs. induction Hs as [|x l Hs IH Hall]; intros Ha Ha1.
  - by apply elem_of_nil in Ha.
  - rewrite Forall_forall in Hall.
    assert (a + 1 ∈ l) as Ha1'.
    { apply elem_of_cons in Ha1 as [Heq|?]; [|done].
      apply elem_of_cons in Ha as [?|Hin]; [lia|]. apply Hall in Hin. lia. }
    destruct (decide (a ∈ l)) as [Hin|Hnin].
    + destruct (IH Hin Ha1') as (pre & post & ->). by exists (x :: pre), post.
    + apply elem_of_cons in Ha as [->|?]; [|done].
      destruct l as [|y l]; [by apply elem_of_nil in Ha1'|].
      exists [], l. simpl. do 2 f_equal.
      assert (x ≤ y) by (apply Hall; left).
      assert (y ≠ x) by (intros ->; apply Hnin; left).
      apply StronglySorted_inv in Hs as [_ Hall'].
      rewrite Forall_forall in Hall'.
      apply elem_of_cons in Ha1' as [?|Hin]; [lia|]. apply Hall' in Hin. lia.
Qed.

Lemma longest_run_adjacent l a :
  StronglySorted Z.le l → a ∈ l → a + 1 ∈ l → (2 ≤ longest_run l)%nat.
Proof.
  intros Hs Ha Ha1.
  destruct (StronglySorted_adjacent l a Hs Ha Ha1) as (pre & post & Hl).
  destruct l as [|x rest]; [by destruct pre|].
  apply (run_lengths_block rest x 1 pre a 2 post); [lia|by rewrite Hl].
Qed.

Lemma block_elem_of a k x : x ∈ block a k ↔ a ≤ x < a + Z.of_nat k.
Proof.
  revert a. induction k as [|k IH]; intros a; simpl.
  - rewrite elem_of_nil. lia.
  - rewrite elem_of_cons, IH. lia.
Qed.

End ascending_ranks.

(** X3. When the calendar holds every detection date of the target, the
    count is at least 1 exactly when two rows of the target lie on dates
    that are adjacent in the calendar. *)
Theorem count_max_consec_detects_positive nest_data row :
  NoDup (dr_Date row) →
  (∀ r, r ∈ nest_data → Date r ∈ dr_Date row) →
  ∃ n, count_max_consec_detects nest_data [row] = Ok n
    ∧ (1 ≤ n ↔
       ∃ r r' a, r ∈ nest_data ∧ r' ∈ nest_data
         ∧ rank_of (dr_Date row) (Date r) = Some a
         ∧ rank_of (dr_Date row) (Date r') = Some (a + 1)).
Proof.
  intros Hnd Hin.
  assert (∀ a, a ∈ target_ranks nest_data (dr_Date row)
               ↔ ∃ r, r ∈ nest_data ∧ rank_of (dr_Date row) (Date r) = Some a)
    as Hranks.
  { intros a. unfold target_ranks. rewrite list_elem_of_omap. split.
    - intros (d & Hd & Ha). apply elem_of_sort_values, list_elem_of_fmap in Hd
        as (r & -> & Hr). by exists r.
    - intros (r & Hr & Ha). exists (Date r). split; [|done].
      apply elem_of_sort_values, list_elem_of_fmap. by exists r. }
  destruct (decide (nest_data = [])) as [->|Hne].
  { exists 0. split; [done|]. split; [lia|].
    by intros (r & _ & _ & []%elem_of_nil & _). }
  assert (target_ranks nest_data (dr_Date row) ≠ []) as Hne'.
  { intros Hnil%(f_equal length).
    rewrite target_ranks_length in Hnil by done. by destruct nest_data. }
  eexists. split.
  { rewrite count_max_one_row, date_ranks_target_ranks by done.
    by apply max_consec_of_ranks. }
  split.
  - intros Hn.
    destruct (longest_run_block _ Hne') as [(pre & a & post & Hblock) _].
    assert (a ∈ target_ranks nest_data (dr_Date row)
            ∧ a + 1 ∈ target_ranks nest_data (dr_Date row)) as [Ha Ha1].
    { rewrite Hblock, !elem_of_app, !block_elem_of. lia. }
    apply Hranks in Ha as (r & Hr & Ha). apply Hranks in Ha1 as (r' & Hr' & Ha1).
    by exists r, r', a.
  - intros (r & r' & a & Hr & Hr' & Ha & Ha1).
    assert (2 ≤ longest_run (target_ranks nest_data (dr_Date row)))%nat; [|lia].
    apply (longest_run_adjacent _ a); [apply target_ranks_StronglySorted|..];
      apply Hranks; eauto.
Qed.

(** X3 at the dates d2 and d3, of ranks 1 and 2. *)
Lemma count_max_consec_detects_positive_witness :
  ∃ n, count_max_consec_detects Examples.at_d2_d3 [Examples.calendar5] = Ok n
       ∧ 1 ≤ n.
Proof.
  destruct (count_max_consec_detects_positive Examples.at_d2_d3 Examples.calendar5)
    as (n & Hn & Hiff).
  - by_eval.
  - intros r Hr. unfold Examples.at_d2_d3 in Hr. elem_of_cases Hr; by_eval.
  - exists n. split; [done|]. apply Hiff.
    exists (Examples.on_ "d2"), (Examples.on_ "d3"), 1.
    split_and!; [by right; left|by left|by vm_compute..].
Defined.

(** ** The calendar of a table and the outcomes of [process_nests] *)

Section outcomes.
Variable fs : FileSystem.
Variable nests_data : list Detection.
Variable crs year site savedir : string.
Variable min_score : Q.
Variable min_detections min_consec_detects : Z.

Local Abbreviation run :=
  (process_nests fs nests_data crs year site savedir
     min_score min_detections min_consec_detects).

(** The calendar of a table of one survey: its dates, each once, in
    order of first appearance. *)
Lemma survey_dates_single r0 :
  one_survey nests_data → r0 ∈ nests_data →
  survey_dates nests_data
  = [mkDateRow (Site r0) (Year r0) (unique (Date <$> nests_data))].
Proof.
  intros Hone Hr0. unfold survey_dates.
  rewrite (groupby_single _ _ _ (Site r0, Year r0)); [done|..].
  - intros ->. by apply elem_of_nil in Hr0.
  - intros r Hr. by destruct (Hone r r0 Hr Hr0) as [-> ->].
Qed.

(** With more than one calendar row the first target already fails. *)
Lemma process_nests_two_surveys :
  nests_data ≠ [] → length (survey_dates nests_data) ≠ 1%nat →
  run = Raise not_one_row.
Proof.
  intros Hne Hl. unfold process_nests.
  destruct nests_data as [|r0 l] eqn:Hnd; [done|]. rewrite <-Hnd in *.
  assert (unique (target_ind <$> nests_data)
          = target_ind r0
              :: filter (λ y, y ≠ target_ind r0) (unique (target_ind <$> l))) as ->
    by by rewrite Hnd.
  cbn [for_each].
  assert (process_target nests_data (survey_dates nests_data) min_score
            min_detections min_consec_detects [] (target_ind r0)
          = Raise not_one_row) as ->; [|done].
  unfold process_target, count_max_consec_detects.
  rewrite (bool_decide_eq_false_2 (length _ = 1%nat)) by done. reflexivity.
Qed.

(** The four outcomes of [process_nests] and the tables, thresholds and
    directories of each. *)
Lemma process_nests_outcome :
  ((∃ r r', r ∈ nests_data ∧ r' ∈ nests_data
            ∧ (Site r, Year r) ≠ (Site r', Year r'))
   ∧ run = Raise not_one_row)
  ∨ (one_survey nests_data
     ∧ (∃ t, t ∈ target_ind <$> nests_data ∧ select nests_data t min_score = [])
     ∧ (min_detections ≤ 0 ∨ min_consec_detects ≤ 0)
     ∧ run = Raise ValueError)
  ∨ (one_survey nests_data
     ∧ (∀ t, t ∈ target_ind <$> nests_data →
          select nests_data t min_score ≠ []
          ∨ (0 < min_detections ∧ 0 < min_consec_detects))
     ∧ ((savedir_ready fs savedir ∧ ∃ out, run = Ok out)
        ∨ (¬ savedir_ready fs savedir
           ∧ path_exists fs savedir = false
           ∧ ∃ name, makedirs fs savedir = Raise (OSError name)
                     ∧ run = Raise (OSError name)))).
Proof.
  destruct (decide (nests_data = [])) as [Hnil|Hne].
  { right; right.
    assert (one_survey nests_data) as Hone
      by (rewrite Hnil; by intros ?? ?%elem_of_nil).
    assert (∀ t, t ∈ target_ind <$> nests_data →
              select nests_data t min_score ≠ []
              ∨ (0 < min_detections ∧ 0 < min_consec_detects)) as Hall
      by (rewrite Hnil; by intros ? ?%elem_of_nil).
    split_and!; [done..|]. by apply process_nests_file_or_OSError. }
  destruct (decide (length (survey_dates nests_data) = 1%nat)) as [Hl|Hl].
  - pose proof (survey_dates_one_survey _ Hl) as Hone. right.
    destruct (decide (Exists (λ t, select nests_data t min_score = [])
                        (unique (target_ind <$> nests_data)))) as [Hex|Hnex].
    + apply Exists_exists in Hex as (t & Ht & Hsel).
      destruct (decide (min_detections ≤ 0 ∨ min_consec_detects ≤ 0)) as [Hmin|Hmin].
      * left. split_and!; [done| |done|].
        -- exists t. by rewrite elem_of_unique in Ht.
        -- unfold process_nests.
           by rewrite (for_each_empty_target _ _ _ _ _ _ _ t).
      * right. assert (∀ t, t ∈ target_ind <$> nests_data →
                 select nests_data t min_score ≠ []
                 ∨ (0 < min_detections ∧ 0 < min_consec_detects)) as Hall
          by (intros; right; lia).
        split_and!; [done..|]. by apply process_nests_file_or_OSError.
    + right. rewrite <-Forall_Exists_neg, Forall_forall in Hnex.
      assert (∀ t, t ∈ target_ind <$> nests_data →
                 select nests_data t min_score ≠ []
                 ∨ (0 < min_detections ∧ 0 < min_consec_detects)) as Hall.
      { intros t Ht. left. apply Hnex. by apply elem_of_unique. }
      split_and!; [done..|]. by apply process_nests_file_or_OSError.
  - left. split; [|by apply process_nests_two_surveys].
    rewrite length_survey_dates in Hl.
    destruct (unique ((λ r, (Site r, Year r)) <$> nests_data))
      as [|k1 [|k2 ks]] eqn:Hu; [|done|].
    + destruct nests_data; [done|]. done.
    + assert (k1 ∈ unique ((λ r, (Site r, Year r)) <$> nests_data)) as H1
        by (rewrite Hu; left).
      assert (k2 ∈ unique ((λ r, (Site r, Year r)) <$> nests_data)) as H2
        by (rewrite Hu; right; left).
      rewrite elem_of_unique in H1. rewrite elem_of_unique in H2.
      apply list_elem_of_fmap in H1 as (r & -> & Hr).
      apply list_elem_of_fmap in H2 as (r' & -> & Hr').
      exists r, r'. split_and!; [done..|].
      pose proof (NoDup_unique ((λ r, (Site r, Year r)) <$> nests_data)) as Hnd.
      rewrite Hu in Hnd. apply NoDup_cons in Hnd as [Hnin _].
      intros Heq. apply Hnin. rewrite Heq. left.
Qed.

End outcomes.

(** X4. In [process_nests] the calendar of a table of one survey holds
    each date of the table once, so every detection date has a rank: the
    count that the loop computes for a target with a row of score
    [>= min_score] is one less than the number of rows in the longest run
    of its rank sequence in that calendar, that is in the longest stretch
    of its rows of score [>= min_score], in date order, along which the
    rank rises by exactly one from each row to the next. *)
Theorem process_nests_count nests_data min_score t :
  one_survey nests_data →
  select nests_data t min_score ≠ [] →
  count_max_consec_detects (select nests_data t min_score) (survey_dates nests_data)
  = Ok (Z.of_nat (longest_run (target_ranks (select nests_data t min_score)
                                 (unique (Date <$> nests_data)))) - 1).
Proof.
  intros Hone Hne.
  assert (∀ r, r ∈ select nests_data t min_score → r ∈ nests_data) as Hsub
    by by intros r [_ ?]%list_elem_of_filter.
  assert (∃ r0, r0 ∈ select nests_data t min_score) as [r0 Hr0].
  { destruct (select nests_data t min_score) as [|r0 ?]; [done|]. exists r0. left. }
  rewrite (survey_dates_single _ r0); [|done|by apply Hsub].
  rewrite count_max_one_row. simpl.
  assert (∀ r, r ∈ select nests_data t min_score
               → Date r ∈ unique (Date <$> nests_data)) as Hin.
  { intros r Hr. by apply elem_of_unique, list_elem_of_fmap_2, Hsub. }
  rewrite date_ranks_target_ranks; [|apply NoDup_unique|done].
  apply max_consec_of_ranks.
  intros Hnil%(f_equal length). rewrite target_ranks_length in Hnil by done.
  by destruct (select nests_data t min_score).
Qed.

(** X4 on target 1 of the example survey: the dates d1 and d2 are the
    ranks 0 and 1 of the calendar d1, d2, d4, d3, d5 of the table. *)
Lemma process_nests_count_witness :
  one_survey Examples.survey
  ∧ target_ranks (select Examples.survey 1 (3 # 10))
      (unique (Date <$> Examples.survey)) = [0; 1]
  ∧ count_max_consec_detects (select Examples.survey 1 (3 # 10))
      (survey_dates Examples.survey) = Ok 1.
Proof.
  assert (Hone : one_survey Examples.survey).
  { apply survey_dates_one_survey. by vm_compute. }
  split_and!; [done|by vm_compute|].
  rewrite (process_nests_count _ _ _ Hone); by vm_compute.
Defined.

(** X5. [process_nests] raises the assertion error on the rows of
    [date_data] exactly when two rows of the table differ in Site or
    Year. *)
Theorem process_nests_not_one_survey fs nests_data crs year site savedir
    min_score min_detections min_consec_detects :
  process_nests fs nests_data crs year site savedir
    min_score min_detections min_consec_detects = Raise not_one_row
  ↔ ∃ r r', r ∈ nests_data ∧ r' ∈ nests_data
            ∧ (Site r ≠ Site r' ∨ Year r ≠ Year r').
Proof.
  destruct (process_nests_outcome fs nests_data crs year site savedir
              min_score min_detections min_consec_detects)
    as [[(r & r' & Hr & Hr' & Hne) ->]
       |[(Hone & _ & _ & ->)
        |(Hone & _ & [(_ & out & ->)|(_ & _ & name & _ & ->)])]].
  - split; [|done]. intros _. exists r, r'. split_and!; [done..|].
    destruct (decide (Site r = Site r')) as [Hs|]; [|by left].
    right. intros Hy. apply Hne. by rewrite Hs, Hy.
  - split; [done|]. intros (r & r' & Hr & Hr' & Hne).
    destruct (Hone r r' Hr Hr'). by destruct Hne.
  - split; [done|]. intros (r & r' & Hr & Hr' & Hne).
    destruct (Hone r r' Hr Hr'). by destruct Hne.
  - split; [done|]. intros (r & r' & Hr & Hr' & Hne).
    destruct (Hone r r' Hr Hr'). by destruct Hne.
Qed.

(** X6. [process_nests] raises the [ValueError] of [max] exactly when the
    table is of one survey, some target has no detection of score
    [>= min_score], and [min_detections <= 0] or
    [min_consec_detects <= 0]. *)
Theorem process_nests_ValueError fs nests_data crs year site savedir
    min_score min_detections min_consec_detects :
  process_nests fs nests_data crs year site savedir
    min_score min_detections min_consec_detects = Raise ValueError
  ↔ one_survey nests_data
    ∧ (∃ t, t ∈ target_ind <$> nests_data ∧ select nests_data t min_score = [])
    ∧ (min_detections ≤ 0 ∨ min_consec_detects ≤ 0).
Proof.
  destruct (process_nests_outcome fs nests_data crs year site savedir
              min_score min_detections min_consec_detects)
    as [[(r & r' & Hr & Hr' & Hne) ->]
       |[(Hone & Ht & Hmin & ->)
        |(Hone & Hall & [(_ & out & ->)|(_ & _ & name & _ & ->)])]].
  - split; [done|]. intros (Hone & _).
    destruct (Hone r r' Hr Hr') as [Hs Hy]. destruct Hne. by rewrite Hs, Hy.
  - done.
  - split; [done|]. intros (_ & (t & Ht & Hnil) & Hmin).
    destruct (Hall t Ht) as [?|[??]]; [done|lia].
  - split; [done|]. intros (_ & (t & Ht & Hnil) & Hmin).
    destruct (Hall t Ht) as [?|[??]]; [done|lia].
Qed.


(** The fourth outcome on the example survey: a directory that cannot be
    made, and the empty path. *)
Example process_nests_makedirs_fails :
  process_nests Examples.locked Examples.survey "EPSG:32617" "2020" "JetportSouth"
    "nests" (3 # 10) 3 1 = Raise (OSError "PermissionError")
  ∧ process_nests Examples.disk Examples.survey "EPSG:32617" "2020" "JetportSouth"
      "" (3 # 10) 3 1 = Raise (OSError "FileNotFoundError").
Proof. split; by vm_compute. Qed.

(** ** The rows of the file *)

Section rows.

Lemma str_min_spec x l :
  str_min (x :: l) ∈ x :: l
  ∧ ∀ y, y ∈ x :: l → String.leb (str_min (x :: l)) y = true.
Proof.
  simpl. revert x. induction l as [|z l IH]; intros x; simpl.
  - split; [left|]. intros y ->%list_elem_of_singleton. apply leb_refl.
  - destruct (IH (if String.ltb z x then z else x)) as [Hin Hle]. split.
    + apply elem_of_cons in Hin as [Hin|Hin]; [|by do 2 right].
      rewrite Hin. destruct (String.ltb z x); [right|]; left.
    + intros y Hy. pose proof (Hle _ ltac:(left)) as Hm.
      apply elem_of_cons in Hy as [->|[->|Hy]%elem_of_cons].
      * destruct (String.ltb z x) eqn:Hzx; [|done].
        eapply leb_trans; [done|]. by apply ltb_leb.
      * destruct (String.ltb z x) eqn:Hzx; [done|].
        eapply leb_trans; [done|]. by apply ltb_false_leb.
      * apply Hle. by right.
Qed.

Lemma str_max_spec x l :
  str_max (x :: l) ∈ x :: l
  ∧ ∀ y, y ∈ x :: l → String.leb y (str_max (x :: l)) = true.
Proof.
  simpl. revert x. induction l as [|z l IH]; intros x; simpl.
  - split; [left|]. intros y ->%list_elem_of_singleton. apply leb_refl.
  - destruct (IH (if String.ltb x z then z else x)) as [Hin Hle]. split.
    + apply elem_of_cons in Hin as [Hin|Hin]; [|by do 2 right].
      rewrite Hin. destruct (String.ltb x z); [right|]; left.
    + intros y Hy. pose proof (Hle _ ltac:(left)) as Hm.
      apply elem_of_cons in Hy as [->|[->|Hy]%elem_of_cons].
      * destruct (String.ltb x z) eqn:Hxz; [|done].
        eapply leb_trans; [|done]. by apply ltb_leb.
      * destruct (String.ltb x z) eqn:Hxz; [done|].
        eapply leb_trans; [|done]. by apply ltb_false_leb.
      * apply Hle. by right.
Qed.

(** The dates and the number of observations of a row. *)
Lemma aggregate_dates nest_data k target row :
  (∀ r, r ∈ nest_data → (Site r, Year r, target_ind r) = k) →
  aggregate target nest_data = Ok row →
  nest_data ≠ []
  ∧ first_obs row = str_min (Date <$> nest_data)
  ∧ last_obs row = str_max (Date <$> nest_data)
  ∧ num_obs row = length nest_data.
Proof.
  intros Hkey (top & info0 & infos & top0 & tops & Htop & Hinfo & _ & ->)%aggregate_Ok_inv.
  assert (nest_data ≠ []) as Hne.
  { apply py_max_Ok_inv in Htop. intros ->. by apply Htop. }
  rewrite (nest_info_single _ k) in Hinfo by done. by injection Hinfo as <- <-.
Qed.

Variable nests_data : list Detection.
Variable date_data : list DateRow.
Variable min_score : Q.
Variable min_detections min_consec_detects : Z.

(** The loop adds its rows in the order of the targets, one per target
    at most. *)
Lemma for_each_sublist targets : ∀ nests0 nests,
  for_each (process_target nests_data date_data min_score
              min_detections min_consec_detects) targets nests0 = Ok nests →
  ∃ rows, nests = nests0 ++ rows ∧ nest_id <$> rows `sublist_of` targets.
Proof.
  induction targets as [|t targets IH]; intros nests0 nests Hloop.
  - injection Hloop as <-. exists []. by rewrite app_nil_r.
  - cbn [for_each] in Hloop.
    destruct (process_target _ _ _ _ _ nests0 t) as [nests1|] eqn:Hbody; [|done].
    simpl in Hloop. apply IH in Hloop as (rows & -> & Hsub).
    apply process_target_Ok in Hbody
      as (n & Hn & [(Hret & row & Hrow & ->)|(Hret & ->)]).
    + exists (row :: rows). rewrite <-app_assoc. split; [done|].
      rewrite fmap_cons, (aggregate_nest_id _ _ _ Hrow). by constructor.
    + exists rows. split; [done|]. by constructor.
Qed.

End rows.

Section rows_of_file.
Variable fs : FileSystem.
Variable nests_data : list Detection.
Variable crs year site savedir : string.
Variable min_score : Q.

(** What a row of the file tells about the table. *)
Lemma process_nests_row_table min_detections min_consec_detects out row :
  process_nests fs nests_data crs year site savedir
    min_score min_detections min_consec_detects = Ok out →
  row ∈ sf_records out →
  ∃ n k,
    select nests_data (nest_id row) min_score ≠ []
    ∧ (∀ r, r ∈ nests_data → Site r = nest_Site row ∧ Year r = nest_Year row)
    ∧ (∀ r, r ∈ select nests_data (nest_id row) min_score
          → (Site r, Year r, target_ind r) = k)
    ∧ count_max_consec_detects (select nests_data (nest_id row) min_score)
        (survey_dates nests_data) = Ok n
    ∧ retained min_detections min_consec_detects
        (select nests_data (nest_id row) min_score) n
    ∧ aggregate (nest_id row) (select nests_data (nest_id row) min_score) = Ok row.
Proof.
  intros Hrun Hrow. pose proof (process_nests_one_survey _ _ _ _ _ _ _ _ _ _ Hrun) as Hone.
  destruct (process_nests_row _ _ _ _ _ _ _ _ _ _ _ Hrun Hrow)
    as (n & r0 & _ & Hn & Hret & Hagg & Hkey).
  destruct (aggregate_dates _ _ _ _ Hkey Hagg) as (Hne & _).
  exists n, (Site r0, Year r0, nest_id row). split_and!; [done| |done..].
  assert (∃ r1, r1 ∈ select nests_data (nest_id row) min_score) as [r1 Hr1].
  { destruct (select nests_data (nest_id row) min_score) as [|r1 ?]; [done|].
    exists r1. left. }
  destruct (aggregate_spec _ _ Hkey _ _ Hagg) as (_ & Hsy & _). simpl in Hsy.
  pose proof (Hkey r1 Hr1) as Hk1. apply list_elem_of_filter in Hr1 as [_ Hr1].
  intros r Hr. destruct (Hone r r1 Hr Hr1) as [-> ->].
  injection Hsy as -> ->. by injection Hk1 as -> -> _.
Qed.

End rows_of_file.

(** X8. The rows of the file follow the order in which the targets first
    appear in the table, and no two rows have the same [nest_id]. *)
Theorem process_nests_rows_order fs nests_data crs year site savedir
    min_score min_detections min_consec_detects out :
  process_nests fs nests_data crs year site savedir
    min_score min_detections min_consec_detects = Ok out →
  nest_id <$> sf_records out `sublist_of` unique (target_ind <$> nests_data)
  ∧ NoDup (nest_id <$> sf_records out).
Proof.
  intros [Hloop _]%process_nests_Ok_inv.
  apply for_each_sublist in Hloop as (rows & Hrows & Hsub).
  simpl in Hrows. rewrite Hrows. split; [done|].
  eapply sublist_NoDup; [apply NoDup_unique|done].
Qed.

(** X8 on the example survey with [min_detections = 2]: the rows of the
    targets 1 and 2, in this order. *)
Lemma process_nests_rows_order_witness :
  ∃ out,
    process_nests Examples.disk Examples.survey "EPSG:32617" "2020" "JetportSouth" "nests"
      (3 # 10) 2 1 = Ok out
    ∧ nest_id <$> sf_records out = [1; 2]
    ∧ NoDup (nest_id <$> sf_records out).
Proof.
  eassert (Hout : process_nests Examples.disk Examples.survey "EPSG:32617" "2020" "JetportSouth"
                    "nests" (3 # 10) 2 1 = Ok _) by (vm_compute; reflexivity).
  eexists. split; [exact Hout|]. split; [reflexivity|].
  apply (process_nests_rows_order _ _ _ _ _ _ _ _ _ _ Hout).
Defined.

(** X9. Every row of the file carries the Site and the Year of all rows
    of the table; its [num_obs] is the number of detections of the target
    of score [>= min_score], and its [num_top1] is at least 1 and at most
    [num_obs]. *)
Theorem process_nests_row_counts fs nests_data crs year site savedir
    min_score min_detections min_consec_detects out row :
  process_nests fs nests_data crs year site savedir
    min_score min_detections min_consec_detects = Ok out →
  row ∈ sf_records out →
  (∀ r, r ∈ nests_data → Site r = nest_Site row ∧ Year r = nest_Year row)
  ∧ num_obs row = length (select nests_data (nest_id row) min_score)
  ∧ (1 ≤ num_top1 row ≤ num_obs row)%nat.
Proof.
  intros Hrun Hrow.
  destruct (process_nests_row_table _ _ _ _ _ _ _ _ _ _ _ Hrun Hrow)
    as (n & k & Hne & Hsite & Hkey & _ & _ & Hagg).
  destruct (aggregate_dates _ _ _ _ Hkey Hagg) as (_ & _ & _ & Hobs).
  destruct (aggregate_spec _ _ Hkey _ _ Hagg)
    as (_ & _ & _ & _ & _ & (r & Hr & Hl) & _ & Htop & _).
  split_and!; [done..| |].
  - rewrite Htop. unfold label_count.
    assert (r ∈ filter (λ r', label r' = species row)
                  (select nests_data (nest_id row) min_score)) as Hin
      by by apply list_elem_of_filter.
    destruct (filter _ _); [by apply elem_of_nil in Hin|]. simpl. lia.
  - rewrite Htop, Hobs. apply length_filter.
Qed.

(** X9 on the labels example: three observations, two of the species. *)
Lemma process_nests_row_counts_witness :
  ∃ out row,
    process_nests Examples.disk Examples.labels "EPSG:32617" "2020" "JetportSouth" "nests"
      (3 # 10) 3 1 = Ok out
    ∧ sf_records out = [row]
    ∧ nest_Site row = "JetportSouth" ∧ nest_Year row = "2020"
    ∧ num_obs row = 3%nat ∧ num_top1 row = 2%nat
    ∧ (1 ≤ num_top1 row ≤ num_obs row)%nat.
Proof.
  eassert (Hout : process_nests Examples.disk Examples.labels "EPSG:32617" "2020" "JetportSouth"
                    "nests" (3 # 10) 3 1 = Ok _) by (vm_compute; reflexivity).
  eexists _, _. split; [exact Hout|]. split; [reflexivity|].
  pose proof (λ row, process_nests_row_counts _ _ _ _ _ _ _ _ _ _ row Hout) as Hrow.
  edestruct Hrow as (_ & _ & Hle); [left|].
  split_and!; try reflexivity; apply Hle.
Defined.

(** X10. In every row of the file, [first_obs] and [last_obs] are dates
    of detections of the target of score [>= min_score], and every such
    date lies between them. *)
Theorem process_nests_row_dates fs nests_data crs year site savedir
    min_score min_detections min_consec_detects out row :
  process_nests fs nests_data crs year site savedir
    min_score min_detections min_consec_detects = Ok out →
  row ∈ sf_records out →
  let dates := Date <$> select nests_data (nest_id row) min_score in
  first_obs row ∈ dates ∧ last_obs row ∈ dates
  ∧ ∀ d, d ∈ dates →
      String.leb (first_obs row) d = true ∧ String.leb d (last_obs row) = true.
Proof.
  intros Hrun Hrow dates.
  destruct (process_nests_row_table _ _ _ _ _ _ _ _ _ _ _ Hrun Hrow)
    as (n & k & _ & _ & Hkey & _ & _ & Hagg).
  destruct (aggregate_dates _ _ _ _ Hkey Hagg) as (Hne & -> & -> & _).
  fold dates. destruct dates as [|d0 dates'] eqn:Hd.
  { unfold dates in Hd. apply fmap_nil_inv in Hd. done. }
  destruct (str_min_spec d0 dates') as [Hmin Hle].
  destruct (str_max_spec d0 dates') as [Hmax Hge].
  split_and!; [done..|]. intros d Hin. split; [by apply Hle|by apply Hge].
Qed.

(** X10 on the labels example, whose last date d4 is below the score
    threshold: the observations span d1 to d3. *)
Lemma process_nests_row_dates_witness :
  ∃ out row,
    process_nests Examples.disk Examples.labels "EPSG:32617" "2020" "JetportSouth" "nests"
      (3 # 10) 3 1 = Ok out
    ∧ sf_records out = [row]
    ∧ first_obs row = "d1" ∧ last_obs row = "d3"
    ∧ first_obs row ∈ Date <$> select Examples.labels (nest_id row) (3 # 10).
Proof.
  eassert (Hout : process_nests Examples.disk Examples.labels "EPSG:32617" "2020" "JetportSouth"
                    "nests" (3 # 10) 3 1 = Ok _) by (vm_compute; reflexivity).
  eexists _, _. split; [exact Hout|]. split; [reflexivity|].
  pose proof (λ row, process_nests_row_dates _ _ _ _ _ _ _ _ _ _ row Hout) as Hrow.
  edestruct Hrow as (Hfirst & _ & _); [left|]. by split_and!.
Defined.

(** A row written under some thresholds is written as it is under lower
    ones, when both runs write. *)
Lemma process_nests_rows_kept fs nests_data crs year site savedir min_score
    min_detections min_consec_detects min_detections' min_consec_detects'
    out out' row :
  min_detections' ≤ min_detections →
  min_consec_detects' ≤ min_consec_detects →
  process_nests fs nests_data crs year site savedir
    min_score min_detections min_consec_detects = Ok out →
  process_nests fs nests_data crs year site savedir
    min_score min_detections' min_consec_detects' = Ok out' →
  row ∈ sf_records out → row ∈ sf_records out'.
Proof.
  intros Hd Hc Hrun Hrun' Hrow.
  destruct (process_nests_row _ _ _ _ _ _ _ _ _ _ _ Hrun Hrow)
    as (n & _ & Ht & Hn & Hret & Hagg & _).
  assert (∃ row', row' ∈ sf_records out' ∧ nest_id row' = nest_id row)
    as (row' & Hrow' & Hid).
  { apply (process_nests_row_iff _ _ _ _ _ _ _ _ _ _ _ Hrun' Ht).
    exists n. split; [done|]. unfold retained in *. lia. }
  destruct (process_nests_row _ _ _ _ _ _ _ _ _ _ _ Hrun' Hrow')
    as (_ & _ & _ & _ & _ & Hagg' & _).
  rewrite Hid, Hagg in Hagg'. by injection Hagg' as <-.
Qed.

(** X11. After a run that wrote its file, the run on the same table and
    directory under a lower [min_detections] or [min_consec_detects]
    either writes a file that keeps every row of the first as it is, so
    that rows are only added, or raises the [ValueError] of [max]: the
    latter when a lowered threshold is [<= 0] and some target has no
    detection of score [>= min_score]. *)
Theorem process_nests_thresholds fs nests_data crs year site savedir min_score
    min_detections min_consec_detects min_detections' min_consec_detects' out :
  min_detections' ≤ min_detections →
  min_consec_detects' ≤ min_consec_detects →
  process_nests fs nests_data crs year site savedir
    min_score min_detections min_consec_detects = Ok out →
  (∃ out',
     process_nests fs nests_data crs year site savedir
       min_score min_detections' min_consec_detects' = Ok out'
     ∧ ∀ row, row ∈ sf_records out → row ∈ sf_records out')
  ∨ ((min_detections' ≤ 0 ∨ min_consec_detects' ≤ 0)
     ∧ (∃ t, t ∈ target_ind <$> nests_data ∧ select nests_data t min_score = [])
     ∧ process_nests fs nests_data crs year site savedir
         min_score min_detections' min_consec_detects' = Raise ValueError).
Proof.
  intros Hd Hc Hrun.
  pose proof (process_nests_one_survey _ _ _ _ _ _ _ _ _ _ Hrun) as Hone.
  pose proof (process_nests_savedir_ready _ _ _ _ _ _ _ _ _ _ Hrun) as Hready.
  destruct (process_nests_outcome fs nests_data crs year site savedir
              min_score min_detections' min_consec_detects')
    as [[(r & r' & Hr & Hr' & Hne) _]
       |[(_ & Ht & Hmin & Hrun')
        |(_ & _ & [(_ & out' & Hrun')|(Hnot & _)])]].
  - destruct (Hone r r' Hr Hr') as [Hs Hy]. destruct Hne. by rewrite Hs, Hy.
  - by right.
  - left. exists out'. split; [done|]. intros row.
    by apply (process_nests_rows_kept _ _ _ _ _ _ _ _ _ _ _ _ _ _ Hd Hc Hrun Hrun').
  - done.
Qed.

(** X11 on the example survey: the row of target 1 under the default
    thresholds is a row under [min_detections = 2] as well. *)
Lemma process_nests_thresholds_witness :
  ∃ out out' row,
    process_nests Examples.disk Examples.survey "EPSG:32617" "2020" "JetportSouth" "nests"
      (3 # 10) 3 1 = Ok out
    ∧ process_nests Examples.disk Examples.survey "EPSG:32617" "2020" "JetportSouth" "nests"
        (3 # 10) 2 1 = Ok out'
    ∧ sf_records out = [row] ∧ length (sf_records out') = 2%nat
    ∧ row ∈ sf_records out'.
Proof.
  eassert (Hout : process_nests Examples.disk Examples.survey "EPSG:32617" "2020" "JetportSouth"
                    "nests" (3 # 10) 3 1 = Ok _) by (vm_compute; reflexivity).
  destruct (process_nests_thresholds _ _ _ _ _ _ _ 3 1 2 1 _
              ltac:(lia) ltac:(lia) Hout)
    as [(out' & Hout' & Hkept)|(_ & _ & Hraise)]; [|by vm_compute in Hraise].
  eexists _, out', _. split; [exact Hout|]. split; [exact Hout'|].
  split; [reflexivity|]. split.
  - vm_compute in Hout'. by injection Hout' as <-.
  - apply Hkept. left.
Defined.

(** With a score threshold that no detection of the example survey
    reaches, the run under the default thresholds writes a file without
    records, and the run under [min_consec_detects = 0] raises. *)
Example process_nests_thresholds_ValueError :
  (∃ out,
     process_nests Examples.disk Examples.survey "EPSG:32617" "2020" "JetportSouth" "nests"
       (95 # 100) 3 1 = Ok out
     ∧ sf_records out = [])
  ∧ process_nests Examples.disk Examples.survey "EPSG:32617" "2020" "JetportSouth" "nests"
      (95 # 100) 3 0 = Raise ValueError.
Proof. split; [eexists; split|]; by vm_compute. Qed.

(** X12. Every row of the file stands for at least [min_detections]
    detections of score [>= min_score], or for at least
    [min_consec_detects + 1] of them; and for at least one. *)
Theorem process_nests_row_support fs nests_data crs year site savedir
    min_score min_detections min_consec_detects out row :
  process_nests fs nests_data crs year site savedir
    min_score min_detections min_consec_detects = Ok out →
  row ∈ sf_records out →
  (1 ≤ num_obs row)%nat
  ∧ (min_detections ≤ Z.of_nat (num_obs row)
     ∨ min_consec_detects + 1 ≤ Z.of_nat (num_obs row)).
Proof.
  intros Hrun Hrow.
  destruct (process_nests_row_table _ _ _ _ _ _ _ _ _ _ _ Hrun Hrow)
    as (n & k & Hne & _ & Hkey & Hn & Hret & Hagg).
  destruct (aggregate_dates _ _ _ _ Hkey Hagg) as (_ & _ & _ & ->).
  apply count_max_bound in Hn. unfold retained in Hret.
  destruct (select nests_data (nest_id row) min_score); [done|].
  simpl in *. lia.
Qed.

(** X12 on the example survey under the default thresholds: the row of
    target 1 stands for two detections, one more than
    [min_consec_detects]. *)
Lemma process_nests_row_support_witness :
  ∃ out row,
    process_nests Examples.disk Examples.survey "EPSG:32617" "2020" "JetportSouth" "nests"
      (3 # 10) 3 1 = Ok out
    ∧ sf_records out = [row]
    ∧ num_obs row = 2%nat
    ∧ (3 ≤ Z.of_nat (num_obs row) ∨ 1 + 1 ≤ Z.of_nat (num_obs row)).
Proof.
  eassert (Hout : process_nests Examples.disk Examples.survey "EPSG:32617" "2020" "JetportSouth"
                    "nests" (3 # 10) 3 1 = Ok _) by (vm_compute; reflexivity).
  eexists _, _. split; [exact Hout|]. split; [reflexivity|]. split; [reflexivity|].
  pose proof (λ row, process_nests_row_support _ _ _ _ _ _ _ _ _ _ row Hout) as Hrow.
  edestruct Hrow as [_ Hsup]; [left|]. exact Hsup.
Defined.

(** X13. Whenever [process_nests] writes, the file lies at
    [savedir/site_year_processed_nests.shp], declares the twelve nest
    columns and keeps the reference system of the table; its geometry
    type is Point when it has records and Polygon when it has none. *)
Theorem process_nests_file fs nests_data crs year site savedir
    min_score min_detections min_consec_detects out :
  process_nests fs nests_data crs year site savedir
    min_score min_detections min_consec_detects = Ok out →
  sf_path out = path_join savedir (site +:+ "_" +:+ year +:+ "_processed_nests.shp")
  ∧ sf_fields out = nest_columns
  ∧ sf_crs out = crs
  ∧ sf_geometry out = match sf_records out with [] => "Polygon" | _ => "Point" end.
Proof.
  unfold process_nests. destruct (for_each _ _ _) as [nests|]; [|done].
  simpl. destruct (if negb _ then _ else _) as [[]|]; [|done].
  simpl. destruct nests; intros [= <-]; done.
Qed.

(** X13 on the example survey with and without a retained target. *)
Lemma process_nests_file_witness :
  ∃ out out',
    process_nests Examples.disk Examples.survey "EPSG:32617" "2020" "JetportSouth" "nests"
      (3 # 10) 3 1 = Ok out
    ∧ process_nests Examples.disk Examples.survey "EPSG:32617" "2020" "JetportSouth" "nests"
        (3 # 10) 3 2 = Ok out'
    ∧ sf_path out = "nests/JetportSouth_2020_processed_nests.shp"
    ∧ sf_geometry out = "Point" ∧ sf_geometry out' = "Polygon"
    ∧ sf_fields out = sf_fields out'.
Proof.
  eassert (Hout : process_nests Examples.disk Examples.survey "EPSG:32617" "2020" "JetportSouth"
                    "nests" (3 # 10) 3 1 = Ok _) by (vm_compute; reflexivity).
  eassert (Hout' : process_nests Examples.disk Examples.survey "EPSG:32617" "2020" "JetportSouth"
                     "nests" (3 # 10) 3 2 = Ok _) by (vm_compute; reflexivity).
  eexists _, _. split; [exact Hout|]. split; [exact Hout'|].
  destruct (process_nests_file _ _ _ _ _ _ _ _ _ _ Hout) as (Hp & Hf & _ & Hg).
  destruct (process_nests_file _ _ _ _ _ _ _ _ _ _ Hout') as (_ & Hf' & _ & Hg').
  split_and!; [by rewrite Hp|by rewrite Hg|by rewrite Hg'|by rewrite Hf, Hf'].
Defined.

(** ** Targets detected at most once per date *)

Section distinct_dates.

Lemma elem_of_target_ranks nest_data calendar a :
  a ∈ target_ranks nest_data calendar
  ↔ ∃ r, r ∈ nest_data ∧ rank_of calendar (Date r) = Some a.
Proof.
  unfold target_ranks. rewrite list_elem_of_omap. split.
  - intros (d & Hd & Ha). apply elem_of_sort_values, list_elem_of_fmap in Hd
      as (r & -> & Hr). by exists r.
  - intros (r & Hr & Ha). exists (Date r). split; [|done].
    apply elem_of_sort_values, list_elem_of_fmap. by exists r.
Qed.

Lemma StronglySorted_NoDup {A} (R : relation A) l :
  StronglySorted R l → NoDup l → StronglySorted (λ a b, R a b ∧ a ≠ b) l.
Proof.
  intros Hs. induction Hs as [|x l Hs IH Hall]; intros Hnd; [constructor|].
  apply NoDup_cons in Hnd as [Hx Hnd]. constructor; [by apply IH|].
  rewrite Forall_forall in *. intros y Hy. split; [by apply Hall|].
  by intros ->.
Qed.

Lemma omap_StronglySorted_rel {A B} (R : relation A) (R' : relation B)
    (f : A → option B) l :
  StronglySorted R l →
  (∀ x y a b, R x y → f x = Some a → f y = Some b → R' a b) →
  StronglySorted R' (omap f l).
Proof.
  intros Hs Hf. induction Hs as [|x l Hs IH Hall]; simpl; [constructor|].
  destruct (f x) as [a|] eqn:Hx; [|done].
  constructor; [done|]. apply Forall_forall.
  intros b (y & Hy & Hb)%list_elem_of_omap.
  rewrite Forall_forall in Hall. by apply (Hf x y); [apply Hall|..].
Qed.

(** The ranks of distinct dates ascend strictly. *)
Lemma target_ranks_strict nest_data calendar :
  NoDup (Date <$> nest_data) →
  StronglySorted Z.lt (target_ranks nest_data calendar).
Proof.
  intros Hnd. unfold target_ranks.
  apply (omap_StronglySorted_rel
           (λ a b : string, Is_true (String.leb a b) ∧ a ≠ b)).
  - apply StronglySorted_NoDup; [apply sort_values_StronglySorted|].
    by rewrite sort_values_Permutation.
  - intros x y a b [Hxy%Is_true_true Hne] Ha Hb.
    pose proof (rank_of_mono _ _ _ _ _ Ha Hb Hxy) as Hle.
    destruct (decide (a = b)) as [->|]; [|lia].
    destruct (rank_of_Some _ _ _ Ha) as (i & Hi & Hx).
    destruct (rank_of_Some _ _ _ Hb) as (j & Hj & Hy).
    assert (i = j) as -> by lia. rewrite Hx in Hy. by injection Hy.
Qed.

Lemma block_snoc a k : block a (S k) = block a k ++ [a + Z.of_nat k].
Proof.
  revert a. induction k as [|k IH]; intros a.
  - simpl. by rewrite Z.add_0_r.
  - change (block a (S (S k))) with (a :: block (a + 1) (S k)).
    rewrite IH. simpl. do 3 f_equal. lia.
Qed.

(** In a strictly ascending series, consecutive values that all occur
    occur side by side. *)
Lemma StronglySorted_block l a k :
  StronglySorted Z.lt l →
  (∀ i, a ≤ i < a + Z.of_nat (S k) → i ∈ l) →
  ∃ pre post, l = pre ++ block a (S k) ++ post.
Proof.
  intros Hs. induction k as [|k IH]; intros Hall.
  - destruct (list_elem_of_split l a) as (pre & post & ->); [apply Hall; lia|].
    by exists pre, post.
  - destruct IH as (pre & post & ->); [intros; apply Hall; lia|].
    assert (a + Z.of_nat (S k) ∈ post) as Hin.
    { specialize (Hall (a + Z.of_nat (S k)) ltac:(lia)).
      apply elem_of_app in Hall as [Hpre|[Hb|?]%elem_of_app]; [| |done].
      - pose proof (StronglySorted_app_1_elem_of _ _ _
                      (a + Z.of_nat (S k)) a Hs Hpre) as Hlt.
        assert (a + Z.of_nat (S k) < a); [|lia]. apply Hlt.
        rewrite elem_of_app. left. apply block_elem_of. lia.
      - apply block_elem_of in Hb. lia. }
    destruct post as [|y post]; [by apply elem_of_nil in Hin|].
    exists pre, post. rewrite (block_snoc a (S k)), <-app_assoc. simpl.
    do 3 f_equal.
    apply StronglySorted_app_1_r in Hs.
    assert (a + Z.of_nat k < y) as Hy.
    { apply (StronglySorted_app_1_elem_of _ _ _ (a + Z.of_nat k) y Hs);
        [|left]. apply block_elem_of. lia. }
    apply StronglySorted_app_1_r, StronglySorted_inv in Hs as [_ Hpost].
    rewrite Forall_forall in Hpost.
    f_equal.
    apply elem_of_cons in Hin as [?|Hin]; [lia|]. apply Hpost in Hin. lia.
Qed.

End distinct_dates.

(** C1, as amended. For a target with at least one row and at most one
    row per date, all of them in the calendar: there is a longest run of
    consecutive calendar positions that are all dates of the target, and
    [count_max_consec_detects] returns one less than the number [k] of
    dates in it, that is the number of adjacent pairs in it. *)
Theorem count_max_consec_detects_longest_run nest_data row :
  NoDup (dr_Date row) →
  (∀ r, r ∈ nest_data → Date r ∈ dr_Date row) →
  NoDup (Date <$> nest_data) →
  nest_data ≠ [] →
  ∃ a k,
    (1 ≤ k)%nat
    ∧ (∀ i, a ≤ i < a + Z.of_nat k →
         ∃ r, r ∈ nest_data ∧ rank_of (dr_Date row) (Date r) = Some i)
    ∧ (∀ a' k',
         (∀ i, a' ≤ i < a' + Z.of_nat k' →
            ∃ r, r ∈ nest_data ∧ rank_of (dr_Date row) (Date r) = Some i) →
         (k' ≤ k)%nat)
    ∧ k = longest_run (target_ranks nest_data (dr_Date row))
    ∧ count_max_consec_detects nest_data [row] = Ok (Z.of_nat k - 1).
Proof.
  intros Hnd Hin Hdates Hne.
  assert (target_ranks nest_data (dr_Date row) ≠ []) as Hranks.
  { intros Hnil%(f_equal length).
    rewrite target_ranks_length in Hnil by done. by destruct nest_data. }
  destruct (longest_run_block _ Hranks) as [(pre & a & post & Hblock) Hmax].
  exists a, (longest_run (target_ranks nest_data (dr_Date row))). split_and!.
  - destruct (target_ranks nest_data (dr_Date row)) as [|x rest] eqn:Hr; [done|].
    by apply (Hmax [] x 1%nat rest).
  - intros i Hi. apply elem_of_target_ranks.
    rewrite Hblock at 1. rewrite !elem_of_app, block_elem_of. auto.
  - intros a' k' Hrun. destruct k' as [|k']; [lia|].
    destruct (StronglySorted_block (target_ranks nest_data (dr_Date row)) a' k')
      as (pre' & post' & Hblock').
    { by apply target_ranks_strict. }
    { intros i Hi. apply elem_of_target_ranks. by apply Hrun. }
    by apply (Hmax pre' a' (S k') post').
  - done.
  - rewrite count_max_one_row, date_ranks_target_ranks by done.
    by apply max_consec_of_ranks.
Qed.

(** C1 at the dates d2 and d3 of a calendar of five: the longest run has
    two dates and the function returns 1. *)
Lemma count_max_consec_detects_longest_run_witness :
  NoDup (dr_Date Examples.calendar5)
  ∧ (∀ r, r ∈ Examples.at_d2_d3 → Date r ∈ dr_Date Examples.calendar5)
  ∧ NoDup (Date <$> Examples.at_d2_d3)
  ∧ Examples.at_d2_d3 ≠ []
  ∧ count_max_consec_detects Examples.at_d2_d3 [Examples.calendar5] = Ok 1.
Proof.
  assert (Hnd : NoDup (dr_Date Examples.calendar5)) by by_eval.
  assert (Hin : ∀ r, r ∈ Examples.at_d2_d3 → Date r ∈ dr_Date Examples.calendar5).
  { intros r Hr. unfold Examples.at_d2_d3 in Hr. elem_of_cases Hr; by_eval. }
  assert (Hdates : NoDup (Date <$> Examples.at_d2_d3)) by by_eval.
  assert (Hne : Examples.at_d2_d3 ≠ []) by done.
  split_and!; [done..|].
  destruct (count_max_consec_detects_longest_run _ _ Hnd Hin Hdates Hne)
    as (a & k & _ & _ & _ & Hk & Hcount).
  vm_compute in Hk. by rewrite Hk in Hcount.
Defined.

(** C1 as stated fails: at the dates d2 and d3 the run has two dates and
    the function returns 1, at the ranks 0, 1, 2, 5, 6 the longest run has
    three and the function returns 2. And with a second row on one of its
    dates the count is not even one less than the number of dates: rows
    on d1, d2, d2 and d3 take the calendar positions 0 to 2, and the
    function returns 1. *)
Lemma count_max_consec_detects_not_run_length :
  (longest_run (target_ranks Examples.at_d2_d3 (dr_Date Examples.calendar5)) = 2%nat
   ∧ count_max_consec_detects Examples.at_d2_d3 [Examples.calendar5] ≠ Ok 2)
  ∧ (target_ranks Examples.at_ranks_01256 (dr_Date Examples.calendar7) = [0; 1; 2; 5; 6]
     ∧ longest_run [0; 1; 2; 5; 6] = 3%nat
     ∧ count_max_consec_detects Examples.at_ranks_01256 [Examples.calendar7] ≠ Ok 3)
  ∧ (target_ranks Examples.at_d1_d2_d2_d3 (dr_Date Examples.calendar5) = [0; 1; 1; 2]
     ∧ count_max_consec_detects Examples.at_d1_d2_d2_d3 [Examples.calendar5] = Ok 1).
Proof. split_and!; by vm_compute. Qed.

Example count_max_consec_detects_d2_d3 :
  count_max_consec_detects Examples.at_d2_d3 [Examples.calendar5] = Ok 1.
Proof. by vm_compute. Qed.

Example count_max_consec_detects_01256 :
  count_max_consec_detects Examples.at_ranks_01256 [Examples.calendar7] = Ok 2.
Proof. by vm_compute. Qed.

(** X14. For a target with at most one row per date, all of them in the
    calendar: when [k >= 1] consecutive calendar positions from [a] on
    are all dates of the target, and no longer stretch of positions is,
    the count is [k - 1]. *)
Theorem count_max_consec_detects_distinct_dates nest_data row a k :
  NoDup (dr_Date row) →
  (∀ r, r ∈ nest_data → Date r ∈ dr_Date row) →
  NoDup (Date <$> nest_data) →
  (1 ≤ k)%nat →
  (∀ i, a ≤ i < a + Z.of_nat k →
     ∃ r, r ∈ nest_data ∧ rank_of (dr_Date row) (Date r) = Some i) →
  (∀ a' k',
     (∀ i, a' ≤ i < a' + Z.of_nat k' →
        ∃ r, r ∈ nest_data ∧ rank_of (dr_Date row) (Date r) = Some i) →
     (k' ≤ k)%nat) →
  count_max_consec_detects nest_data [row] = Ok (Z.of_nat k - 1).
Proof.
  intros Hnd Hin Hdates Hk Hrun Hmax.
  destruct k as [|k]; [lia|].
  destruct (StronglySorted_block (target_ranks nest_data (dr_Date row)) a k)
    as (pre & post & Hblock).
  { by apply target_ranks_strict. }
  { intros i Hi. apply elem_of_target_ranks. by apply Hrun. }
  rewrite count_max_one_row, date_ranks_target_ranks by done.
  rewrite max_consec_of_ranks by (rewrite Hblock; by destruct pre).
  rewrite (longest_run_unique _ pre a (S k) post Hblock); [done|lia|].
  intros pre' a' k' post' Hblock'. apply (Hmax a').
  intros i Hi. apply elem_of_target_ranks.
  rewrite Hblock', !elem_of_app, block_elem_of. auto.
Qed.

(** X14 at the dates d1, d2, d3, d6, d7 of a calendar of seven: the
    positions 0 to 2 are dates of the target, no four positions in a row
    are, and the count is 2. *)
Lemma count_max_consec_detects_distinct_dates_witness :
  NoDup (Date <$> Examples.at_ranks_01256)
  ∧ count_max_consec_detects Examples.at_ranks_01256 [Examples.calendar7] = Ok 2.
Proof.
  assert (Hdates : NoDup (Date <$> Examples.at_ranks_01256)) by by_eval.
  assert (Hnd : NoDup (dr_Date Examples.calendar7)) by by_eval.
  assert (Hin : ∀ r, r ∈ Examples.at_ranks_01256
                     → Date r ∈ dr_Date Examples.calendar7).
  { intros r Hr. unfold Examples.at_ranks_01256 in Hr. elem_of_cases Hr; by_eval. }
  split; [done|].
  apply (count_max_consec_detects_distinct_dates _ _ 0 3 Hnd Hin Hdates).
  - lia.
  - intros i Hi.
    assert (i = 0 ∨ i = 1 ∨ i = 2) as [-> | [-> | ->]] by lia.
    + exists (Examples.on_ "d1"). split; [by left|by vm_compute].
    + exists (Examples.on_ "d2"). split; [by right; left|by vm_compute].
    + exists (Examples.on_ "d3"). split; [by do 2 right; left|by vm_compute].
  - intros a' k' Hrun. destruct k' as [|k']; [lia|].
    destruct (StronglySorted_block
                (target_ranks Examples.at_ranks_01256 (dr_Date Examples.calendar7))
                a' k') as (pre & post & Hblock).
    { by apply target_ranks_strict. }
    { intros i Hi. apply elem_of_target_ranks. by apply Hrun. }
    assert (target_ranks Examples.at_ranks_01256 (dr_Date Examples.calendar7) ≠ [])
      as Hne by by vm_compute.
    apply (proj2 (longest_run_block _ Hne)) in Hblock.
    assert (longest_run (target_ranks Examples.at_ranks_01256
                           (dr_Date Examples.calendar7)) = 3%nat) as Hrun3
      by by vm_compute.
    by rewrite Hrun3 in Hblock.
Defined.

(** ** The dict of ranks *)

Section dates_dict.

Lemma foldl_insert_not_elem_of (l : list string) : ∀ (g : nat → nat) (m : gmap string Z) d,
  d ∉ l →
  foldl (λ m kv, <[kv.2 := Z.of_nat kv.1]> m) m (imap (λ i x, (g i, x)) l) !! d
  = m !! d.
Proof.
  induction l as [|x l IH]; intros g m d Hd; [done|].
  apply not_elem_of_cons in Hd as [Hne Hd].
  rewrite imap_cons. cbn [foldl].
  change ((λ i x, (g i, x)) ∘ S) with (λ i (x : string), ((g ∘ S) i, x)).
  rewrite IH by done. simpl. by rewrite lookup_insert_ne.
Qed.

Lemma dates_dict_not_elem_of l d : d ∉ l → dates_dict l !! d = None.
Proof.
  intros Hd. unfold dates_dict.
  change pair with (λ (i : nat) (x : string), (id i, x)).
  by rewrite foldl_insert_not_elem_of.
Qed.

End dates_dict.

(** X15. The dict built from a series without repeated dates inverts the
    series: it maps a date to [i] exactly when the series holds the date
    at position [i], and it has no entry for a date exactly when the
    series lacks it. *)
Theorem dates_dict_inverse sorted_dates d :
  NoDup sorted_dates →
  (∀ i, dates_dict sorted_dates !! d = Some (Z.of_nat i)
        ↔ sorted_dates !! i = Some d)
  ∧ (dates_dict sorted_dates !! d = None ↔ d ∉ sorted_dates).
Proof.
  intros Hnd.
  assert (dates_dict sorted_dates !! d
          = (λ ix, Z.of_nat ix.1) <$> list_find (eq d) sorted_dates) as Hdict.
  { unfold dates_dict. change pair with (λ (i : nat) (x : string), (id i, x)).
    rewrite foldl_insert_lookup by done. by destruct (list_find _ _). }
  split.
  - intros i. rewrite Hdict. split.
    + intros ([j x] & Hfind & Hj)%fmap_Some.
      apply list_find_Some in Hfind as (Hx & <- & _). simpl in Hj.
      by replace i with j by lia.
    + intros Hi. apply fmap_Some. exists (i, d). split; [|done].
      apply list_find_Some. split_and!; [done..|].
      intros j y Hj Hlt ->. pose proof (NoDup_lookup _ _ _ _ Hnd Hi Hj). lia.
  - rewrite Hdict, fmap_None, list_find_None, Forall_forall. split.
    + intros Hall Hd. by apply (Hall d).
    + intros Hd x Hx ->. done.
Qed.

(** X15 on the sorted calendar of five dates: d3 has rank 2. *)
Lemma dates_dict_inverse_witness :
  dates_dict (sort_values (dr_Date Examples.calendar5)) !! "d3" = Some 2
  ∧ dates_dict (sort_values (dr_Date Examples.calendar5)) !! "d9" = None.
Proof.
  assert (Hnd : NoDup (sort_values (dr_Date Examples.calendar5))) by by_eval.
  split.
  - apply (proj1 (dates_dict_inverse _ "d3" Hnd) 2%nat). by vm_compute.
  - apply (proj2 (dates_dict_inverse _ "d9" Hnd)). apply (bool_decide_unpack _).
    by vm_compute.
Defined.

(** X16. Dates that the calendar lacks raise nothing: their ranks are
    [NaN], and a target none of whose dates is in the calendar has the
    count 0. *)
Theorem count_max_consec_detects_missing_dates nest_data row :
  (∀ r, r ∈ nest_data → Date r ∉ dr_Date row) →
  date_ranks nest_data (dr_Date row) = replicate (length nest_data) NaN
  ∧ count_max_consec_detects nest_data [row] = Ok 0.
Proof.
  intros Hmiss.
  assert (∀ c, c ∈ date_ranks nest_data (dr_Date row) → c = NaN) as Hnan.
  { unfold date_ranks, map_dict. intros c (d & -> & Hd)%list_elem_of_fmap.
    apply elem_of_sort_values, list_elem_of_fmap in Hd as (r & -> & Hr).
    rewrite dates_dict_not_elem_of; [done|].
    rewrite elem_of_sort_values. by apply Hmiss. }
  split.
  - rewrite <-(length_date_ranks nest_data (dr_Date row)).
    induction (date_ranks nest_data (dr_Date row)) as [|c l IH]; [done|].
    simpl. rewrite (Hnan c) by left. f_equal. apply IH. intros. apply Hnan. by right.
  - rewrite count_max_one_row. apply max_consec_of_diff_no_adjacent.
    intros x y Hx Hy. rewrite (Hnan x Hx), (Hnan y Hy). done.
Qed.

(** X16 at two dates that a calendar of five lacks. *)
Lemma count_max_consec_detects_missing_dates_witness :
  count_max_consec_detects [Examples.on_ "d8"; Examples.on_ "d9"]
    [Examples.calendar5] = Ok 0.
Proof.
  apply count_max_consec_detects_missing_dates.
  intros r Hr. elem_of_cases Hr; apply (bool_decide_unpack _); by vm_compute.
Defined.

(** ** The script *)

Section script.

Lemma split_sep_cons c s :
  c ≠ ("/" : ascii) →
  split_sep (String c s)
  = match split_sep s with [] => [String c ""] | x :: l => String c x :: l end.
Proof. intros Hc. simpl. by rewrite bool_decide_eq_false_2. Qed.

Lemma split_sep_comp c s :
  has_sep c = false → split_sep (c +:+ String "/" s) = c :: split_sep s.
Proof.
  induction c as [|a c IH]; intros Hc.
  - done.
  - simpl in Hc. apply orb_false_iff in Hc as [Ha%bool_decide_eq_false Hc].
    change (String a c +:+ String "/" s) with (String a (c +:+ String "/" s)).
    rewrite split_sep_cons by done. by rewrite IH.
Qed.

Lemma split_sep_plain c : has_sep c = false → split_sep c = [c].
Proof.
  induction c as [|a c IH]; intros Hc; [done|].
  simpl in Hc. apply orb_false_iff in Hc as [Ha%bool_decide_eq_false Hc].
  rewrite split_sep_cons by done. by rewrite IH.
Qed.

(** Splitting undoes joining. *)
Lemma split_sep_join comps :
  comps ≠ [] → Forall (λ c, has_sep c = false) comps →
  split_sep (join "/" comps) = comps.
Proof.
  induction comps as [|c comps IH]; [done|]. intros _ Hall.
  apply Forall_cons in Hall as [Hc Hall].
  destruct comps as [|c' comps]; [by apply split_sep_plain|].
  change (join "/" (c :: c' :: comps))
    with (c +:+ String "/" (join "/" (c' :: comps))).
  rewrite split_sep_comp by done. by rewrite IH.
Qed.

Lemma normpath_plain_comps n comps : ∀ acc,
  Forall plain comps → foldl (normpath_step n) acc comps = acc ++ comps.
Proof.
  induction comps as [|c comps IH]; intros acc Hall; [by rewrite app_nil_r|].
  apply Forall_cons in Hall as [(Hne & Hdot & Hdots & _) Hall].
  simpl. unfold normpath_step at 2.
  rewrite bool_decide_eq_false_2 by (by intros [?|?]).
  rewrite bool_decide_eq_true_2 by by left.
  rewrite IH by done. by rewrite <-app_assoc.
Qed.

(** The parts of an absolute path of plain components. *)
Lemma split_normpath_plain comps :
  comps ≠ [] → Forall plain comps →
  split_sep (normpath ("/" +:+ join "/" comps)) = "" :: comps.
Proof.
  intros Hne Hall.
  assert (Forall (λ c, has_sep c = false) comps) as Hsep
    by (eapply Forall_impl; [done|]; by intros c (_ & _ & _ & ?)).
  assert (Hjoin : ∃ a s, join "/" comps = String a s ∧ a ≠ ("/" : ascii)).
  { destruct comps as [|c comps]; [done|].
    apply Forall_cons in Hall as [(Hc & _ & _ & Hs) _].
    destruct c as [|a c]; [done|]. simpl in Hs.
    apply orb_false_iff in Hs as [Ha%bool_decide_eq_false _].
    exists a. destruct comps; simpl; eauto. }
  destruct Hjoin as (a & s & Hj & Ha).
  unfold normpath. rewrite bool_decide_eq_false_2 by done.
  assert (String.prefix "/" ("/" +:+ join "/" comps) = true) as ->.
  { rewrite Hj. reflexivity. }
  assert (String.prefix "//" ("/" +:+ join "/" comps) = false) as ->.
  { rewrite Hj. change ("/" +:+ String a s) with (String "/" (String a s)).
    change (String.prefix "//" (String "/" (String a s)))
      with (if ascii_dec "/" "/"
            then if ascii_dec "/" a then String.prefix "" s else false
            else false).
    destruct (ascii_dec "/" "/"); [|done].
    by destruct (ascii_dec "/" a) as [<-|]. }
  cbn [andb].
  change ("/" +:+ join "/" comps) with ("" +:+ String "/" (join "/" comps)).
  rewrite split_sep_comp by done. rewrite split_sep_join by done.
  cbn [foldl].
  assert (normpath_step 1 [] "" = []) as -> by by vm_compute.
  rewrite normpath_plain_comps by done. simpl app.
  rewrite bool_decide_eq_false_2 by done.
  change ("/" +:+ join "/" comps) with ("" +:+ String "/" (join "/" comps)).
  rewrite split_sep_comp by done. by rewrite split_sep_join.
Qed.

End script.

(** X17. On an absolute path of plain components with four directories
    before the year, the script takes the fifth component as the year and
    the sixth as the site, and calls [process_nests] on the table read at
    the path with the default thresholds and the directory
    [working_dir/processed_nests/year/site]. *)
Theorem main_call fs working_dir read_file dirs year site rest :
  length dirs = 4%nat →
  Forall plain (dirs ++ year :: site :: rest) →
  let path := "/" +:+ join "/" (dirs ++ year :: site :: rest) in
  main fs working_dir read_file path
  = Called
      (process_nests fs (read_file path).1 (read_file path).2 year site
         (path_join (path_join (path_join working_dir "processed_nests") year) site)
         (3 # 10) 3 1).
Proof.
  intros Hl Hall path. unfold main, path.
  rewrite split_normpath_plain by (done || by destruct dirs).
  assert (("" :: dirs ++ year :: site :: rest) !! 5%nat = Some year) as ->.
  { simpl. rewrite lookup_app_r by lia. by rewrite Hl. }
  assert (("" :: dirs ++ year :: site :: rest) !! 6%nat = Some site) as ->.
  { simpl. rewrite lookup_app_r by lia. by rewrite Hl. }
  done.
Qed.

(** X17 on a path of the survey of Jetport South in 2020: the file is
    written under [work/processed_nests/2020/JetportSouth]. *)
Lemma main_call_witness :
  ∃ out,
    main Examples.disk "work" Examples.read_survey
      "/blue/ewhite/everglades/predictions/2020/JetportSouth/nests.shp"
    = Called (Ok out)
    ∧ sf_path out
      = "work/processed_nests/2020/JetportSouth/JetportSouth_2020_processed_nests.shp".
Proof.
  pose proof (main_call Examples.disk "work" Examples.read_survey
                ["blue"; "ewhite"; "everglades"; "predictions"]
                "2020" "JetportSouth" ["nests.shp"] eq_refl) as Hmain.
  eassert (Hout : process_nests Examples.disk Examples.survey "EPSG:32617" "2020" "JetportSouth"
                    "work/processed_nests/2020/JetportSouth" (3 # 10) 3 1 = Ok _)
    by (vm_compute; reflexivity).
  eexists. split.
  - etrans; [|f_equal; exact Hout]. apply Hmain.
    repeat (apply Forall_cons; split; [by split_and!|]). constructor.
  - reflexivity.
Defined.

(** X18. On an absolute path of fewer than six plain components the
    script raises [IndexError] before it reads anything. *)
Theorem main_short_path fs working_dir read_file comps :
  comps ≠ [] → Forall plain comps → (length comps < 6)%nat →
  main fs working_dir read_file ("/" +:+ join "/" comps) = IndexError.
Proof.
  intros Hne Hall Hl. unfold main. rewrite split_normpath_plain by done.
  destruct (("" :: comps) !! 5%nat) as [year|] eqn:H5.
  - destruct (("" :: comps) !! 6%nat) as [site|] eqn:H6; [|done].
    apply lookup_lt_Some in H6. simpl in H6. lia.
  - done.
Qed.

(** X18 on a path with the year and no site. *)
Lemma main_short_path_witness :
  main Examples.disk "work" Examples.read_survey "/blue/ewhite/everglades/predictions/2020"
  = IndexError.
Proof.
  apply (main_short_path _ _ _ ["blue"; "ewhite"; "everglades"; "predictions"; "2020"]).
  - done.
  - repeat (apply Forall_cons; split; [by split_and!|]). constructor.
  - simpl. lia.
Defined.
